(** * Contextual patterns (concarne.patterns): model and properties

    A shallow embedding of [concarne/patterns/base.py] and
    [concarne/patterns/pairwise.py].  Theano expressions are symbolic terms,
    Lasagne layers live in a store keyed by reference (several sub-networks
    may share a layer, and tagging mutates the layer's own tag sets), and the
    methods that assign attributes or raise are written in a small
    state-and-exception monad over the pair (layer store, [self]). *)

From Stdlib Require Import QArith Qcanon.
From stdpp Require Import base numbers strings gmap list sets option.

Open Scope string_scope.
Open Scope list_scope.

(** ** Symbolic data *)

(** A layer object is named by its reference in the store. *)
Abbreviation layer_ref := nat.

(** A trainable parameter: a shared variable, named by a number. *)
Abbreviation param := nat.

(** Theano variables: supplied by the caller, or created by an input layer
    that was given no variable of its own. *)
Inductive var : Type :=
  | UserVar (n : nat)
  | InputOf (l : layer_ref).

(** Objective functions: the two Lasagne objectives the pairwise patterns
    default to, and any callable the caller supplies. *)
Inductive loss_fn : Type :=
  | categorical_crossentropy
  | squared_error
  | UserFn (n : nat).

(** Symbolic expressions.  [EScale w e] is the Python product [w * e] of a
    number and an expression, [ELayer l e] is [l.get_output_for(e)],
    [ECall f a b] is [f(a, b)] and [EMean e] is [e.mean()]. *)
Inductive expr : Type :=
  | EVar (v : var)
  | ELayer (l : layer_ref) (e : expr)
  | ESub (a b : expr)
  | EAdd (a b : expr)
  | EScale (w : Qc) (e : expr)
  | ECall (f : loss_fn) (a b : expr)
  | EMean (e : expr).

(** Shapes: a plain integer, or a tuple whose entries may be [None]. *)
Inductive shape : Type :=
  | ShapeInt (d : Z)
  | ShapeTuple (ds : list (option Z)).

(** What a caller may pass as [target_loss] / [context_loss]: nothing, a
    ready expression, or a callable objective. *)
Inductive loss_arg : Type :=
  | LNone
  | LExpr (e : expr)
  | LFn (f : loss_fn).

(** Modelled from the spec: [isfunction] of [concarne/utils.py], which is not
    among the sources; the constructor treats a loss argument as deferred
    exactly when it is a callable rather than a ready expression. *)
Definition isfunction (a : loss_arg) : bool :=
  match a with LFn _ => true | _ => false end.

Definition expr_of (a : loss_arg) : option expr :=
  match a with LExpr e => Some e | _ => None end.

Definition fn_of (a : loss_arg) : option loss_fn :=
  match a with LFn f => Some f | _ => None end.

(** ** Exceptions and results *)

Inductive exn : Type :=
  | AssertionError
  | TypeError
  | AttributeError
  | NotImplementedError.

Inductive res (A : Type) : Type :=
  | Ok (a : A)
  | Raise (e : exn).
Arguments Ok {A} a.
Arguments Raise {A} e.

Definition succeeds {A} (r : res A) : Prop := ∃ a, r = Ok a.

(** Sequencing of results: the first exception wins. *)
Definition res_bind {A B} (r : res A) (k : A → res B) : res B :=
  match r with Ok a => k a | Raise e => Raise e end.

Notation "'let?' x := r 'in' k" := (res_bind r (λ x, k))
  (at level 10, x name, r at level 100, k at level 200, only parsing).

(** ** Layers (the external graph library)

    A layer object: the attribute [input_layer] (absent on input layers), the
    attribute [input_var] (present on input layers only), its shape, and its
    [params] dictionary from parameter to set of tags, in insertion order. *)
Record layer : Type := Layer {
  l_input_layer : option layer_ref;
  l_input_var : option var;
  l_shape : option shape;
  l_params : list (param * gset string)
}.

#[global] Instance layer_inhabited : Inhabited layer :=
  populate (Layer None None None []).

(** The tags requested with [True], and those requested with [False]. *)
Definition only (tags : gmap string bool) : gset string :=
  dom (filter (λ kv, kv.2 = true) tags).

Definition exclude (tags : gmap string bool) : gset string :=
  dom (filter (λ kv, kv.2 = false) tags).

(** Modelled from the spec: [Layer.get_params] of the graph library, called
    with keyword tags, as the docstring of [Pattern.get_params] describes it:
    [tag=True] keeps the parameters tagged with [tag], [tag=False] keeps
    those not tagged with it; the order is that of the layer's [params]
    dictionary. *)
Definition Layer_get_params (l : layer) (tags : gmap string bool) : list param :=
  (filter (λ e, only tags ⊆ e.2 ∧ e.2 ## exclude tags) (l_params l)).*1.

(** [l.get_output_for(input)]: a symbolic application.  A layer's forward
    pass dereferences its input, so [None] is not accepted. *)
Definition Layer_get_output_for (l : layer_ref) (input : option expr) : res expr :=
  match input with
  | Some e => Ok (ELayer l e)
  | None => Raise AttributeError
  end.

(** [lasagne.layers.InputLayer(shape, input_var)], to be stored at reference
    [r]: an input layer makes a variable of its own when it is given none. *)
Definition InputLayer (r : layer_ref) (sh : shape) (input_var : option var) : layer :=
  {| l_input_layer := None;
     l_input_var := Some (default (InputOf r) input_var);
     l_shape := Some sh;
     l_params := [] |}.

(** ** Pattern objects *)

Inductive pattern_class : Type :=
  | Pattern
  | PairwiseTransformationPattern
  | PairwisePredictTransformationPattern.

#[global] Instance pattern_class_eq_dec : EqDecision pattern_class.
Proof. solve_decision. Defined.

(** The attributes of a pattern object.  An attribute that holds [None] and
    one that was never assigned are both [None] here; the only attribute read
    without ever being assigned by a constructor is [context_shape]. *)
Record pattern : Type := MkPattern {
  cls : pattern_class;
  phi : layer_ref;
  psi : layer_ref;
  beta : option layer_ref;
  input_layer : option layer_ref;
  input_var : option var;
  target_var : option var;
  context_var : option var;
  target_loss : option expr;
  target_loss_fn : option loss_fn;
  context_loss : option expr;
  context_loss_fn : option loss_fn;
  name : option string;
  context_input_layer : option layer_ref;
  context_transform_var : option var;
  context_shape : option shape
}.

Definition set_target_loss (v : option expr) (p : pattern) : pattern :=
  MkPattern (cls p) (phi p) (psi p) (beta p) (input_layer p) (input_var p)
    (target_var p) (context_var p) v (target_loss_fn p) (context_loss p)
    (context_loss_fn p) (name p) (context_input_layer p)
    (context_transform_var p) (context_shape p).

Definition set_context_loss (v : option expr) (p : pattern) : pattern :=
  MkPattern (cls p) (phi p) (psi p) (beta p) (input_layer p) (input_var p)
    (target_var p) (context_var p) (target_loss p) (target_loss_fn p) v
    (context_loss_fn p) (name p) (context_input_layer p)
    (context_transform_var p) (context_shape p).

Definition set_context_input_layer (v : option layer_ref) (p : pattern) : pattern :=
  MkPattern (cls p) (phi p) (psi p) (beta p) (input_layer p) (input_var p)
    (target_var p) (context_var p) (target_loss p) (target_loss_fn p)
    (context_loss p) (context_loss_fn p) (name p) v
    (context_transform_var p) (context_shape p).

Definition set_context_transform_var (v : option var) (p : pattern) : pattern :=
  MkPattern (cls p) (phi p) (psi p) (beta p) (input_layer p) (input_var p)
    (target_var p) (context_var p) (target_loss p) (target_loss_fn p)
    (context_loss p) (context_loss_fn p) (name p) (context_input_layer p)
    v (context_shape p).

Definition set_context_shape (v : option shape) (p : pattern) : pattern :=
  MkPattern (cls p) (phi p) (psi p) (beta p) (input_layer p) (input_var p)
    (target_var p) (context_var p) (target_loss p) (target_loss_fn p)
    (context_loss p) (context_loss_fn p) (name p) (context_input_layer p)
    (context_transform_var p) v.

(** The keyword arguments of the constructors. *)
Record args : Type := MkArgs {
  a_phi : layer_ref;
  a_psi : layer_ref;
  a_beta : option layer_ref;
  a_target_var : option var;
  a_context_var : option var;
  a_target_loss : loss_arg;
  a_context_loss : loss_arg;
  a_name : option string
}.

(** ** The state-and-exception monad

    The state is the layer store together with [self]; a raised exception
    keeps the state reached when it was raised. *)
Record state : Type := MkState {
  heap : gmap layer_ref layer;
  self : pattern
}.

Definition M (A : Type) : Type := state → res A * state.

Definition ret {A} (a : A) : M A := λ s, (Ok a, s).

Definition bind {A B} (m : M A) (k : A → M B) : M B :=
  λ s, match m s with
       | (Ok a, s') => k a s'
       | (Raise e, s') => (Raise e, s')
       end.

Definition raise {A} (e : exn) : M A := λ s, (Raise e, s).

Definition lift {A} (r : res A) : M A := λ s, (r, s).

Definition get_self : M pattern := λ s, (Ok (self s), s).

Definition get_heap : M (gmap layer_ref layer) := λ s, (Ok (heap s), s).

Definition put_self (p : pattern) : M unit := λ s, (Ok tt, MkState (heap s) p).

Definition put_heap (h : gmap layer_ref layer) : M unit :=
  λ s, (Ok tt, MkState h (self s)).

Definition modify_self (f : pattern → pattern) : M unit :=
  λ s, (Ok tt, MkState (heap s) (f (self s))).

Definition modify_heap (f : gmap layer_ref layer → gmap layer_ref layer) : M unit :=
  λ s, (Ok tt, MkState (f (heap s)) (self s)).

(** [assert b] *)
Definition assert (b : bool) : M unit :=
  if b then ret tt else raise AssertionError.

(** Reading an attribute that may be missing. *)
Definition attr {A} (o : option A) : M A :=
  match o with Some a => ret a | None => raise AttributeError end.

Notation "x <- m ;; k" := (bind m (λ x, k))
  (at level 100, m at next level, right associativity).
Notation "m ;;; k" := (bind m (λ _, k))
  (at level 100, right associativity).

(** ** Values of expressions

    A tensor is the list of its entries.  Variables, layers and objective
    functions are interpreted by the caller's data and by the graph library;
    differences, sums and products with a number are elementwise, and the
    mean is a tensor with one entry. *)

Abbreviation tensor := (list Qc).

Definition tsum (t : tensor) : Qc := foldr Qcplus 0%Qc t.

Definition mean (t : tensor) : Qc :=
  (tsum t / Q2Qc (inject_Z (Z.of_nat (length t))))%Qc.

Section Semantics.

Variable var_val : var → tensor.
Variable layer_fun : layer_ref → tensor → tensor.
Variable loss_fun : loss_fn → tensor → tensor → tensor.

Fixpoint denote (e : expr) : tensor :=
  match e with
  | EVar v => var_val v
  | ELayer l a => layer_fun l (denote a)
  | ESub a b => zip_with Qcminus (denote a) (denote b)
  | EAdd a b => zip_with Qcplus (denote a) (denote b)
  | EScale w a => Qcmult w <$> denote a
  | ECall f a b => loss_fun f (denote a) (denote b)
  | EMean a => [mean (denote a)]
  end.

(** The value of a result, when there is one. *)
Definition result_value (r : res expr) : option tensor :=
  match r with Ok e => Some (denote e) | Raise _ => None end.

End Semantics.

(** ** The methods of [Pattern] and of the pairwise patterns *)

Section Patterns.

(** [lasagne.layers.get_all_layers(layer)]: the layers of the graph that ends
    in [layer].  The result depends on how the layers are wired and not on
    their tags; no method below rewires a layer. *)
Variable get_all_layers : layer_ref → list layer_ref.

(** [get_all_layers] skips [None]. *)
Definition all_layers_of (f : option layer_ref) : list layer_ref :=
  from_option get_all_layers [] f.

(** The body of the inner loop of [_tag_function_parameters] for one entry of
    [l.params]: [continue] when tagging under another role than phi an entry
    that carries "phi", and [l.params[p].add(fun_name)] otherwise. *)
Definition tag_param (fun_name : string) (e : param * gset string)
  : param * gset string :=
  if bool_decide (fun_name ≠ "phi") && bool_decide ("phi" ∈ e.2)
  then e
  else (e.1, e.2 ∪ {[fun_name]}).

(** The inner loop: [l.get_params()] without tags lists every key of
    [l.params], so each entry is visited once. *)
Definition tag_layer (fun_name : string) (l : layer) : layer :=
  Layer (l_input_layer l) (l_input_var l) (l_shape l)
        (tag_param fun_name <$> l_params l).

Definition tag_layers (fun_name : string) (ls : list layer_ref)
    (h : gmap layer_ref layer) : gmap layer_ref layer :=
  foldl (λ h l, alter (tag_layer fun_name) l h) h ls.

Definition _tag_function_parameters (f : option layer_ref) (fun_name : string)
  : M unit :=
  modify_heap (tag_layers fun_name (all_layers_of f)).

(** The object [__init__] receives: [phi], [psi] and [beta] are stored first
    (base.py, lines 41-43), every other attribute is still missing. *)
Definition new_object (c : pattern_class) (a : args) : pattern :=
  MkPattern c (a_phi a) (a_psi a) (a_beta a) None None None None None None
            None None None None None None.

(** [Pattern.__init__].  A callable loss goes to the [_fn] slot and leaves
    the expression slot [None] (lines 51-63, written per slot). *)
Definition Pattern_fields (s : pattern) (a : args) (il : layer_ref) (iv : var)
  : pattern :=
  MkPattern (cls s) (a_phi a) (a_psi a) (a_beta a) (Some il) (Some iv)
    (a_target_var a) (a_context_var a)
    (if isfunction (a_target_loss a) then None else expr_of (a_target_loss a))
    (if isfunction (a_target_loss a) then fn_of (a_target_loss a) else None)
    (if isfunction (a_context_loss a) then None else expr_of (a_context_loss a))
    (if isfunction (a_context_loss a) then fn_of (a_context_loss a) else None)
    (a_name a)
    (context_input_layer s) (context_transform_var s) (context_shape s).

Definition Pattern_init (a : args) : M unit :=
  h <- get_heap ;;
  s <- get_self ;;
  il <- attr (l_input_layer (h !!! a_phi a)) ;;
  iv <- attr (l_input_var (h !!! il)) ;;
  put_self (Pattern_fields s a il iv) ;;;
  _tag_function_parameters (Some (a_phi a)) "phi" ;;;
  _tag_function_parameters (Some (a_psi a)) "psi" ;;;
  _tag_function_parameters (a_beta a) "beta".

(** [training_input_vars] and [context_vars], by class. *)
Definition training_input_vars (p : pattern) : list (option var) :=
  match cls p with
  | Pattern => [input_var p; target_var p; context_var p]
  | _ => [input_var p; target_var p; context_var p; context_transform_var p]
  end.

Definition context_vars (p : pattern) : list (option var) :=
  match cls p with
  | Pattern => [context_var p]
  | _ => [context_var p; context_transform_var p]
  end.

(** [default_target_objective] and [default_context_objective], by class.
    The base class evaluates [NotImplemented()], a call of an object that is
    not callable, which raises [TypeError]. *)
Definition default_target_objective (c : pattern_class) : res loss_fn :=
  match c with
  | Pattern => Raise TypeError
  | _ => Ok categorical_crossentropy
  end.

Definition default_context_objective (c : pattern_class) : res loss_fn :=
  match c with
  | Pattern => Raise TypeError
  | _ => Ok squared_error
  end.

Definition get_phi_output_for (p : pattern) (input : option expr) : res expr :=
  Layer_get_output_for (phi p) input.

Definition get_psi_output_for (p : pattern) (input : option expr) : res expr :=
  let? phi_output := Layer_get_output_for (phi p) input in
  Layer_get_output_for (psi p) (Some phi_output).

Definition get_output_for (p : pattern) (input : option expr) : res expr :=
  get_psi_output_for p input.

Definition get_output (p : pattern) : res expr :=
  get_output_for p (EVar <$> input_var p).

(** [Pattern.get_beta_output_for(input)] of the base class. *)
Definition Pattern_get_beta_output_for (p : pattern) (input : option expr)
  : res expr :=
  Raise NotImplementedError.

(** [PairwisePredictTransformationPattern.get_beta_output_for]. *)
Definition PairwisePredict_get_beta_output_for (p : pattern)
    (input_i input_j : option expr) : res expr :=
  let? phi_i_output := Layer_get_output_for (phi p) input_i in
  let? phi_j_output := Layer_get_output_for (phi p) input_j in
  let diff := ESub phi_i_output phi_j_output in
  match beta p with
  | Some b => Layer_get_output_for b (Some diff)
  | None => Ok diff
  end.

(** [self.get_beta_output_for(input_i, input_j)], by class.  The base
    class's method takes one input, so two positional inputs are a
    [TypeError] there. *)
Definition get_beta_output_for (p : pattern) (input_i input_j : option expr)
  : res expr :=
  match cls p with
  | Pattern => Raise TypeError
  | PairwiseTransformationPattern => Raise NotImplementedError
  | PairwisePredictTransformationPattern =>
      PairwisePredict_get_beta_output_for p input_i input_j
  end.

(** [Pattern.get_params]: psi, then beta when present, then phi. *)
Definition get_params (h : gmap layer_ref layer) (p : pattern)
    (tags : gmap string bool) : list param :=
  let params := Layer_get_params (h !!! psi p) tags in
  let params :=
    match beta p with
    | Some b => params ++ Layer_get_params (h !!! b) tags
    | None => params
    end in
  params ++ Layer_get_params (h !!! phi p) tags.

(** [w * loss]: a product with [None] is a [TypeError]. *)
Definition py_mul (w : Qc) (loss : option expr) : res expr :=
  match loss with
  | Some e => Ok (EScale w e)
  | None => Raise TypeError
  end.

(** [Pattern.training_loss]. *)
Definition training_loss (p : pattern) (target_weight context_weight : Qc)
  : res expr :=
  if decide (target_weight = 0%Qc) then
    py_mul context_weight (context_loss p)
  else if decide (context_weight = 0%Qc) then
    py_mul target_weight (target_loss p)
  else
    let? t := py_mul target_weight (target_loss p) in
    let? c := py_mul context_weight (context_loss p) in
    Ok (EAdd t c).

(** The objective used when a loss has to be built: the caller's function
    when there is one, the class's default otherwise. *)
Definition target_objective (p : pattern) : res loss_fn :=
  match target_loss_fn p with
  | None => default_target_objective (cls p)
  | Some f => Ok f
  end.

Definition context_objective (p : pattern) : res loss_fn :=
  match context_loss_fn p with
  | None => default_context_objective (cls p)
  | Some f => Ok f
  end.

(** [Pattern._create_target_objective(output=None, target=None)]. *)
Definition _create_target_objective (output target : option expr) : M unit :=
  s <- get_self ;;
  output <- match output with
            | None => lift (get_psi_output_for s (EVar <$> input_var s))
            | Some o => ret o
            end ;;
  let target := match target with
                | None => EVar <$> target_var s
                | Some t => Some t
                end in
  match target_loss s with
  | None =>
      assert (bool_decide (input_var s ≠ None)) ;;;
      assert (bool_decide (target_var s ≠ None)) ;;;
      fn <- lift (target_objective s) ;;
      match target with
      | Some t => modify_self (set_target_loss (Some (EMean (ECall fn output t))))
      | None => raise TypeError
      end
  | Some _ => ret tt
  end.

(** [PairwiseTransformationPattern._create_context_objective]. *)
Definition _create_context_objective : M unit :=
  s <- get_self ;;
  match context_loss s with
  | None =>
      assert (bool_decide (input_var s ≠ None)) ;;;
      assert (bool_decide (context_var s ≠ None)) ;;;
      fn <- lift (context_objective s) ;;
      b <- lift (get_beta_output_for s (EVar <$> input_var s)
                                       (EVar <$> context_var s)) ;;
      match context_transform_var s with
      | Some c => modify_self (set_context_loss (Some (EMean (ECall fn b (EVar c)))))
      | None => raise TypeError
      end
  | Some _ => ret tt
  end.

(** [PairwiseTransformationPattern.__init__], which
    [PairwisePredictTransformationPattern.__init__] calls with the same
    keyword arguments. *)
Definition PairwiseTransformationPattern_init
    (ctv : option var) (a : args) : M unit :=
  modify_self (set_context_input_layer None) ;;;
  Pattern_init a ;;;
  modify_self (set_context_transform_var ctv) ;;;
  s <- get_self ;;
  assert (bool_decide (context_transform_var s ≠ None)) ;;;
  _create_target_objective None None ;;;
  _create_context_objective.

(** [cls(context_transform_var=..., **kwargs)]: run the class's constructor
    on a new object, over the layer store [h]. *)
Definition construct (c : pattern_class) (ctv : option var)
    (a : args) (h : gmap layer_ref layer) : res unit * state :=
  match c with
  | Pattern => Pattern_init a (MkState h (new_object c a))
  | _ => PairwiseTransformationPattern_init ctv a (MkState h (new_object c a))
  end.

(** [PairwisePredictTransformationPattern.default_beta_input]; the property
    exists on that class only. *)
Definition default_beta_input : M layer_ref :=
  s <- get_self ;;
  if bool_decide (cls s = PairwisePredictTransformationPattern) then
    match context_input_layer s with
    | None =>
        context_shape <- attr (context_shape s) ;;
        let context_dim :=
          match context_shape with
          | ShapeInt d => ShapeTuple [None; Some d]
          | ShapeTuple _ => context_shape
          end in
        h <- get_heap ;;
        let r := fresh (dom h) in
        put_heap (<[r := InputLayer r context_dim (context_var s)]> h) ;;;
        modify_self (set_context_input_layer (Some r)) ;;;
        ret r
    | Some r => ret r
    end
  else raise AttributeError.

(** The store after the three tagging passes of the constructor. *)
Definition tagged (a : args) (h : gmap layer_ref layer) : gmap layer_ref layer :=
  tag_layers "beta" (all_layers_of (a_beta a))
    (tag_layers "psi" (get_all_layers (a_psi a))
       (tag_layers "phi" (get_all_layers (a_phi a)) h)).

End Patterns.

(** ** Auxiliary notions for the properties *)

Definition half : Qc := Q2Qc (1 # 2).

(** The [params] entries behind [get_params]: those of the psi layer, then
    those of the beta layer when there is one, then those of the phi layer. *)
Definition role_entries (h : gmap layer_ref layer) (p : pattern)
  : list (param * gset string) :=
  l_params (h !!! psi p)
  ++ from_option (λ b, l_params (h !!! b)) [] (beta p)
  ++ l_params (h !!! phi p).

(** The attributes that no loss builder touches. *)
Definition same_frame (s s' : state) : Prop :=
  heap s' = heap s ∧
  cls (self s') = cls (self s) ∧
  context_input_layer (self s') = context_input_layer (self s) ∧
  context_shape (self s') = context_shape (self s).

(** * A concrete model

    Three one-layer sub-networks, each on an input layer of its own:
    phi is layer 1 on input layer 0, psi is layer 3 on input layer 2, and
    beta is layer 5 on input layer 4.  No parameter carries a role tag
    yet. *)

Definition example_heap : gmap layer_ref layer :=
  <[0 := Layer None (Some (UserVar 0)) (Some (ShapeTuple [None; Some 4%Z])) []]>
  (<[1 := Layer (Some 0) None None
            [(10, {["trainable"; "regularizable"]}); (11, {["trainable"]})]]>
  (<[2 := Layer None (Some (InputOf 2)) (Some (ShapeTuple [None; Some 3%Z])) []]>
  (<[3 := Layer (Some 2) None None [(30, {["trainable"]})]]>
  (<[4 := Layer None (Some (InputOf 4)) (Some (ShapeTuple [None; Some 3%Z])) []]>
  (<[5 := Layer (Some 4) None None [(50, ∅)]]> ∅))))).

(** [get_all_layers] on these graphs: the input layer, then the layer. *)
Definition example_layers (l : layer_ref) : list layer_ref :=
  match l with
  | 1 => [0; 1]
  | 3 => [2; 3]
  | 5 => [4; 5]
  | _ => [l]
  end.

Definition x_i : var := UserVar 0.
Definition y : var := UserVar 1.
Definition x_j : var := UserVar 2.
Definition c_ij : var := UserVar 3.

(** phi and psi, target and context variable, no loss argument. *)
Definition example_args : args :=
  MkArgs 1 3 None (Some y) (Some x_j) LNone LNone None.

(** The same with a beta sub-network and a callable target loss. *)
Definition example_args_fn : args :=
  MkArgs 1 3 (Some 5) (Some y) (Some x_j) (LFn (UserFn 7)) LNone None.

(** A base pattern, and a pairwise pattern, built from these. *)
Definition example_base : state :=
  (construct example_layers Pattern None example_args example_heap).2.

Definition example_pairwise : state :=
  (construct example_layers PairwisePredictTransformationPattern
     (Some c_ij) example_args example_heap).2.

(** A base pattern with beta and a callable target loss. *)
Definition example_base_fn : state :=
  (construct example_layers Pattern None example_args_fn example_heap).2.

(** A base pattern that was given its target loss as a ready expression
    and no context loss. *)
Definition example_args_expr : args :=
  MkArgs 1 3 None (Some y) (Some x_j)
    (LExpr (EMean (ECall categorical_crossentropy
                     (ELayer 3 (ELayer 1 (EVar x_i))) (EVar y))))
    LNone None.

Definition example_base_expr : state :=
  (construct example_layers Pattern None example_args_expr example_heap).2.

(** The store after a first pattern used layer 3 as its psi, and the
    arguments of a second pattern that uses layer 3 as its phi. *)
Definition heap_after_first : gmap layer_ref layer := heap example_base.

Definition second_args : args :=
  MkArgs 3 5 None (Some y) None LNone LNone None.

Definition example_second : state :=
  (construct example_layers Pattern None second_args heap_after_first).2.

(** Values for the examples: every variable is a vector of two numbers,
    layers and objectives act as the identity and the difference. *)
Definition example_var_val (v : var) : tensor := [1%Qc; half].
Definition example_layer_fun (l : layer_ref) (t : tensor) : tensor := t.
Definition example_loss_fun (f : loss_fn) (a b : tensor) : tensor :=
  zip_with Qcminus a b.

Ltac run_monad :=
  repeat first
    [ progress unfold bind, ret, raise, lift, get_self, get_heap, put_self,
        put_heap, modify_self, modify_heap, assert, attr,
        _tag_function_parameters in *
    | progress cbv beta iota zeta in *
    | progress cbn [heap self] in * ].

(** ** Further notions *)

(** The three role tags. *)
Definition role_tags : gset string := {["phi"; "psi"; "beta"]}.

(** No entry of the layer carries a role tag. *)
Definition no_role_tags (l : layer) : Prop :=
  Forall (λ e : param * gset string, e.2 ## role_tags) (l_params l).

(** The input layer of phi and its variable, when phi has both
    ([phi.input_layer.input_var]). *)
Definition phi_input (h : gmap layer_ref layer) (a : args)
  : option (layer_ref * var) :=
  match l_input_layer (h !!! a_phi a) with
  | Some il =>
      match l_input_var (h !!! il) with
      | Some iv => Some (il, iv)
      | None => None
      end
  | None => None
  end.

(** Two pattern objects that differ at most in their two loss expressions. *)
Definition same_wiring (p p' : pattern) : Prop :=
  cls p' = cls p ∧ phi p' = phi p ∧ psi p' = psi p ∧ beta p' = beta p ∧
  input_layer p' = input_layer p ∧ input_var p' = input_var p ∧
  target_var p' = target_var p ∧ context_var p' = context_var p ∧
  target_loss_fn p' = target_loss_fn p ∧
  context_loss_fn p' = context_loss_fn p ∧ name p' = name p ∧
  context_input_layer p' = context_input_layer p ∧
  context_transform_var p' = context_transform_var p ∧
  context_shape p' = context_shape p.

(** The expression [phi(x_i) - phi(x_j)], passed through beta when the
    pattern has one. *)
Definition beta_expr (p : pattern) (x_i x_j : expr) : expr :=
  let diff := ESub (ELayer (phi p) x_i) (ELayer (phi p) x_j) in
  match beta p with
  | Some b => ELayer b diff
  | None => diff
  end.

(** The target loss a pairwise constructor ends with: the caller's ready
    expression, or else the mean objective of the network output against
    [target_var], which needs [target_var]. *)
Definition built_target_loss (a : args) (iv : var) : option expr :=
  match a_target_loss a with
  | LExpr e => Some e
  | other =>
      match a_target_var a with
      | Some t =>
          Some (EMean (ECall (default categorical_crossentropy (fn_of other))
                         (ELayer (a_psi a) (ELayer (a_phi a) (EVar iv)))
                         (EVar t)))
      | None => None
      end
  end.

(** The context loss [PairwisePredictTransformationPattern] ends with. *)
Definition built_context_loss (a : args) (iv c : var) : option expr :=
  match a_context_loss a with
  | LExpr e => Some e
  | other =>
      match a_context_var a with
      | Some x =>
          let diff := ESub (ELayer (a_phi a) (EVar iv))
                           (ELayer (a_phi a) (EVar x)) in
          Some (EMean (ECall (default squared_error (fn_of other))
                         (match a_beta a with
                          | Some b => ELayer b diff
                          | None => diff
                          end)
                         (EVar c)))
      | None => None
      end
  end.

(** Reducing attribute reads on objects that are written out. *)
Ltac simpl_fields :=
  cbn [cls phi psi beta input_layer input_var target_var context_var
       target_loss target_loss_fn context_loss context_loss_fn name
       context_input_layer context_transform_var context_shape
       set_target_loss set_context_loss set_context_input_layer
       set_context_transform_var set_context_shape Pattern_fields new_object
       a_phi a_psi a_beta a_target_var a_context_var a_target_loss
       a_context_loss a_name isfunction expr_of fn_of heap self
       fmap option_fmap option_map default from_option] in *.

(** What the three tagging passes do to one entry of a layer's [params],
    given whether the layer lies in the graph of phi, of psi and of beta. *)
Definition retag (visited : bool) (fun_name : string)
    (e : param * gset string) : param * gset string :=
  if visited then tag_param fun_name e else e.

Definition tag_entry (in_phi in_psi in_beta : bool)
    (e : param * gset string) : param * gset string :=
  retag in_beta "beta" (retag in_psi "psi" (retag in_phi "phi" e)).

(** The layer [l] after the three passes. *)
Definition tagged_layer (get_all_layers : layer_ref → list layer_ref)
    (a : args) (l : layer_ref) (L : layer) : layer :=
  Layer (l_input_layer L) (l_input_var L) (l_shape L)
    (tag_entry (bool_decide (l ∈ get_all_layers (a_phi a)))
               (bool_decide (l ∈ get_all_layers (a_psi a)))
               (bool_decide (l ∈ all_layers_of get_all_layers (a_beta a)))
       <$> l_params L).

(** Further objects of the concrete model: a base pattern without target
    variable, an object of the abstract pairwise class as its constructor
    leaves it when [context_transform_var] is missing, a pairwise pattern
    with beta, and a pairwise pattern whose [context_shape] was assigned. *)
Definition example_args_no_target : args :=
  MkArgs 1 3 None None (Some x_j) LNone LNone None.

Definition example_base_no_target : state :=
  (construct example_layers Pattern None example_args_no_target
     example_heap).2.

Definition example_abstract : state :=
  (construct example_layers PairwiseTransformationPattern None example_args
     example_heap).2.

Definition example_pairwise_beta : state :=
  (construct example_layers PairwisePredictTransformationPattern (Some c_ij)
     example_args_fn example_heap).2.

Definition example_pairwise_no_context_loss : state :=
  MkState (heap example_pairwise)
          (set_context_loss None (self example_pairwise)).


(** Evaluating the two loss builders on a state that is written out. *)
Ltac crunch_builders :=
  unfold bind, _create_target_objective, _create_context_objective,
    target_objective, context_objective, default_target_objective,
    default_context_objective, get_psi_output_for, get_beta_output_for,
    PairwisePredict_get_beta_output_for, built_target_loss,
    built_context_loss;
  run_monad; simpl_fields;
  cbn [Layer_get_output_for res_bind];
  rewrite ?bool_decide_true by done;
  rewrite ?bool_decide_false by (by intros []);
  run_monad; simpl_fields.

(** * Properties *)

Section Properties.

Variable get_all_layers : layer_ref → list layer_ref.

(** ** The weighted training loss *)

Lemma Qc_one_neq_zero : 1%Qc ≠ 0%Qc.
Proof. discriminate. Qed.

Lemma half_neq_zero : half ≠ 0%Qc.
Proof. discriminate. Qed.

Lemma tscale_one (t : tensor) : Qcmult 1 <$> t = t.
Proof.
  induction t as [|x t IH]; [done|].
  by rewrite fmap_cons, IH, Qcmult_1_l.
Qed.

Lemma tscale_zero_length (t u : tensor) :
  length t = length u → Qcmult 0 <$> t = Qcmult 0 <$> u.
Proof.
  revert u. induction t as [|x t IH]; intros [|y u] Hlen; try done.
  rewrite !fmap_cons. f_equal; [ring | apply IH; by injection Hlen].
Qed.

Lemma tscale_add (w : Qc) (t u : tensor) :
  zip_with Qcplus (Qcmult w <$> t) (Qcmult w <$> u)
  = Qcmult w <$> zip_with Qcplus t u.
Proof.
  revert u. induction t as [|x t IH]; intros [|y u]; try done.
  rewrite !fmap_cons. cbn [zip_with]. rewrite fmap_cons, IH. f_equal. ring.
Qed.

Section TrainingLoss.

Variable var_val : var → tensor.
Variable layer_fun : layer_ref → tensor → tensor.
Variable loss_fun : loss_fn → tensor → tensor → tensor.

#[local] Abbreviation value := (denote var_val layer_fun loss_fun).

(** C1: with both losses set, [training_loss tw cw] is [cw * context_loss]
    when [tw] is zero, [tw * target_loss] when [cw] is zero, and the sum of
    the two products otherwise; where both weights are zero the returned
    product [0 * context_loss] has the value of [0 * target_loss] for losses
    of one shape.  [training_loss 1 0] has the value of [target_loss],
    [training_loss 0 1] that of [context_loss], and [training_loss 1/2 1/2]
    is half the sum of the two: the weights are used as given and never
    renormalised. *)
Theorem training_loss_weighted_sum (p : pattern) (tl cl : expr) :
  target_loss p = Some tl →
  context_loss p = Some cl →
  (∀ tw cw, tw = 0%Qc → training_loss p tw cw = Ok (EScale cw cl)) ∧
  (∀ tw cw, tw ≠ 0%Qc → cw = 0%Qc → training_loss p tw cw = Ok (EScale tw tl)) ∧
  (∀ tw cw, cw = 0%Qc → length (value tl) = length (value cl) →
     result_value var_val layer_fun loss_fun (training_loss p tw cw) = Some (Qcmult tw <$> value tl)) ∧
  (∀ tw cw, tw ≠ 0%Qc → cw ≠ 0%Qc →
     training_loss p tw cw = Ok (EAdd (EScale tw tl) (EScale cw cl))) ∧
  result_value var_val layer_fun loss_fun (training_loss p 1 0) = Some (value tl) ∧
  result_value var_val layer_fun loss_fun (training_loss p 0 1) = Some (value cl) ∧
  training_loss p half half = Ok (EAdd (EScale half tl) (EScale half cl)) ∧
  result_value var_val layer_fun loss_fun (training_loss p half half)
    = Some (Qcmult half <$> zip_with Qcplus (value tl) (value cl)).
Proof.
  intros Ht Hc. unfold training_loss, py_mul. rewrite Ht, Hc.
  repeat apply conj.
  - intros tw cw ->. by rewrite decide_True.
  - intros tw cw Htw ->. by rewrite decide_False, decide_True.
  - intros tw cw -> Hlen. destruct (decide (tw = 0%Qc)) as [->|Htw].
    + cbn [result_value denote]. f_equal. symmetry. by apply tscale_zero_length.
    + by rewrite decide_True.
  - intros tw cw Htw Hcw. by rewrite !decide_False.
  - rewrite decide_False by apply Qc_one_neq_zero. rewrite decide_True by done.
    cbn [result_value denote]. by rewrite tscale_one.
  - rewrite decide_True by done. cbn [result_value denote]. by rewrite tscale_one.
  - by rewrite !decide_False by apply half_neq_zero.
  - rewrite !decide_False by apply half_neq_zero.
    cbn [res_bind result_value denote]. by rewrite tscale_add.
Qed.

End TrainingLoss.

(** C8, as the code has it: [training_loss tw cw] needs [context_loss] alone
    when [tw] is zero (also when [cw] is zero as well), [target_loss] alone
    when [tw] is not zero and [cw] is zero, and both losses otherwise; it
    succeeds exactly when the losses it needs are set. *)
Theorem training_loss_succeeds_iff (p : pattern) (tw cw : Qc) :
  succeeds (training_loss p tw cw) ↔
    (tw = 0%Qc ∧ is_Some (context_loss p)) ∨
    (tw ≠ 0%Qc ∧ cw = 0%Qc ∧ is_Some (target_loss p)) ∨
    (tw ≠ 0%Qc ∧ cw ≠ 0%Qc ∧ is_Some (target_loss p) ∧ is_Some (context_loss p)).
Proof.
  unfold training_loss, succeeds, py_mul, is_Some.
  destruct (decide (tw = 0%Qc)) as [Htw|Htw];
    [|destruct (decide (cw = 0%Qc)) as [Hcw|Hcw]];
    destruct (target_loss p) as [tl|], (context_loss p) as [cl|];
    cbn [res_bind];
    (split;
     [ intros [e He]; try discriminate He; eauto 10
     | intros H; destruct_or?; destruct_and?;
       repeat match goal with Hs : ∃ _, None = Some _ |- _ => destruct Hs as [? Hs]
              end;
       try contradiction; try discriminate; eauto ]).
Qed.

(** ** Predicting the transformation from the difference of embeddings *)

Section BetaOutput.

Variable var_val : var → tensor.
Variable layer_fun : layer_ref → tensor → tensor.
Variable loss_fun : loss_fn → tensor → tensor → tensor.

#[local] Abbreviation value := (denote var_val layer_fun loss_fun).

(** C6: on a [PairwisePredictTransformationPattern] without beta,
    [get_beta_output_for x_i x_j] is the expression [phi(x_i) - phi(x_j)],
    whose value is the elementwise difference of phi's two outputs; with a
    beta sub-network it is beta applied to that difference. *)
Theorem get_beta_output_for_difference (p : pattern) (x_i x_j : expr) :
  cls p = PairwisePredictTransformationPattern →
  (beta p = None →
     get_beta_output_for p (Some x_i) (Some x_j)
       = Ok (ESub (ELayer (phi p) x_i) (ELayer (phi p) x_j)) ∧
     result_value var_val layer_fun loss_fun
         (get_beta_output_for p (Some x_i) (Some x_j))
       = Some (zip_with Qcminus (layer_fun (phi p) (value x_i))
                                (layer_fun (phi p) (value x_j)))) ∧
  (∀ b, beta p = Some b →
     get_beta_output_for p (Some x_i) (Some x_j)
       = Ok (ELayer b (ESub (ELayer (phi p) x_i) (ELayer (phi p) x_j))) ∧
     result_value var_val layer_fun loss_fun
         (get_beta_output_for p (Some x_i) (Some x_j))
       = Some (layer_fun b
                 (zip_with Qcminus (layer_fun (phi p) (value x_i))
                                   (layer_fun (phi p) (value x_j))))).
Proof.
  intros Hcls. unfold get_beta_output_for, PairwisePredict_get_beta_output_for.
  rewrite Hcls. cbn [Layer_get_output_for res_bind].
  split.
  - intros ->. done.
  - intros b ->. done.
Qed.

End BetaOutput.

(** ** The order and the filtering of [get_params] *)

Lemma filter_all {A} (P : A → Prop) `{!∀ x, Decision (P x)} (l : list A) :
  (∀ x, P x) → filter P l = l.
Proof.
  intros HP. induction l as [|x l IH]; [done|].
  rewrite filter_cons_True by done. by rewrite IH.
Qed.

Lemma only_empty : only ∅ = ∅.
Proof. unfold only. by rewrite map_filter_empty, dom_empty_L. Qed.

Lemma exclude_empty : exclude ∅ = ∅.
Proof. unfold exclude. by rewrite map_filter_empty, dom_empty_L. Qed.

Lemma only_singleton (t : string) (b : bool) :
  only {[t := b]} = if b then {[t]} else ∅.
Proof.
  unfold only. destruct b.
  - by rewrite map_filter_singleton_True, dom_singleton_L.
  - by rewrite map_filter_singleton_False, dom_empty_L.
Qed.

Lemma exclude_singleton (t : string) (b : bool) :
  exclude {[t := b]} = if b then ∅ else {[t]}.
Proof.
  unfold exclude. destruct b.
  - by rewrite map_filter_singleton_False, dom_empty_L.
  - by rewrite map_filter_singleton_True, dom_singleton_L.
Qed.

Lemma get_params_entries (h : gmap layer_ref layer) (p : pattern)
    (tags : gmap string bool) :
  get_params h p tags
  = (filter (λ e, only tags ⊆ e.2 ∧ e.2 ## exclude tags) (role_entries h p)).*1.
Proof.
  unfold get_params, role_entries, Layer_get_params.
  destruct (beta p) as [b|]; cbn [from_option].
  - by rewrite !list.filter_app, !fmap_app, (assoc_L (++)).
  - by rewrite app_nil_l, !list.filter_app, !fmap_app.
Qed.

(** C2: [get_params] lists psi's parameters, then beta's when beta is
    present, then phi's, each filtered by the tags; without tags it lists
    them all; with one tag set to [True] it returns exactly the parameters
    whose tag set contains the tag, and with one tag set to [False] exactly
    those whose tag set does not. *)
Theorem get_params_order_and_filter (h : gmap layer_ref layer) (p : pattern) :
  (∀ tags,
     get_params h p tags
     = Layer_get_params (h !!! psi p) tags
       ++ from_option (λ b, Layer_get_params (h !!! b) tags) [] (beta p)
       ++ Layer_get_params (h !!! phi p) tags) ∧
  get_params h p ∅ = (role_entries h p).*1 ∧
  (∀ t, get_params h p {[t := true]}
        = (filter (λ e, t ∈ e.2) (role_entries h p)).*1) ∧
  (∀ t, get_params h p {[t := false]}
        = (filter (λ e, t ∉ e.2) (role_entries h p)).*1).
Proof.
  repeat apply conj.
  - intros tags. unfold get_params.
    destruct (beta p) as [b|]; cbn [from_option]; [|done].
    by rewrite <- (assoc_L (++)).
  - rewrite get_params_entries, only_empty, exclude_empty.
    f_equal. apply filter_all. set_solver.
  - intros t. rewrite get_params_entries, only_singleton, exclude_singleton.
    f_equal. apply list_filter_iff. intros [q ts]. cbn [snd].
    rewrite singleton_subseteq_l. split; [by intros [? _]|].
    intros Hin. split; [done|]. apply disjoint_empty_r.
  - intros t. rewrite get_params_entries, only_singleton, exclude_singleton.
    f_equal. apply list_filter_iff. intros [q ts]. cbn [snd].
    rewrite disjoint_singleton_r. split; [by intros [_ ?]|].
    intros Hnin. split; [apply empty_subseteq | done].
Qed.

(** ** Abstract operations of the base class *)

(** C10, as the code has it: on the base class [get_beta_output_for] raises
    [NotImplementedError], while the two default objectives raise
    [TypeError] (from calling [NotImplemented]) and not
    [NotImplementedError]. *)
Theorem base_abstract_operations (p : pattern) (input : option expr) :
  Pattern_get_beta_output_for p input = Raise NotImplementedError ∧
  default_target_objective Pattern = Raise TypeError ∧
  default_context_objective Pattern = Raise TypeError ∧
  default_target_objective Pattern ≠ Raise NotImplementedError ∧
  default_context_objective Pattern ≠ Raise NotImplementedError.
Proof. repeat apply conj; done. Qed.

(** ** Running the constructors *)

Lemma Pattern_init_ok (a : args) (s : state) (il : layer_ref) (iv : var) :
  l_input_layer (heap s !!! a_phi a) = Some il →
  l_input_var (heap s !!! il) = Some iv →
  Pattern_init get_all_layers a s
  = (Ok tt, MkState (tagged get_all_layers a (heap s)) (Pattern_fields (self s) a il iv)).
Proof.
  intros Hil Hiv. unfold Pattern_init. run_monad.
  rewrite Hil. run_monad. rewrite Hiv. by run_monad.
Qed.

Lemma Pattern_init_inv (a : args) (s s' : state) :
  Pattern_init get_all_layers a s = (Ok tt, s') →
  ∃ il iv,
    l_input_layer (heap s !!! a_phi a) = Some il ∧
    l_input_var (heap s !!! il) = Some iv ∧
    s' = MkState (tagged get_all_layers a (heap s)) (Pattern_fields (self s) a il iv).
Proof.
  unfold Pattern_init. run_monad.
  destruct (l_input_layer (heap s !!! a_phi a)) as [il|] eqn:Hil;
    run_monad; [|done].
  destruct (l_input_var (heap s !!! il)) as [iv|] eqn:Hiv;
    run_monad; [|done].
  intros [= <-]. by exists il, iv.
Qed.

(** ** The two target-loss slots after [Pattern.__init__] *)

(** C4, as the code has it: after [Pattern.__init__] a callable
    [target_loss] argument sits in [target_loss_fn] with the expression slot
    [None], an expression argument sits in [target_loss] with
    [target_loss_fn] [None], and without a [target_loss] argument both slots
    are [None]; so at most one of the two slots is set. *)
Theorem Pattern_init_target_loss_slots (a : args)
    (h : gmap layer_ref layer) (s : state) :
  construct get_all_layers Pattern None a h = (Ok tt, s) →
  match a_target_loss a with
  | LFn f => target_loss (self s) = None ∧ target_loss_fn (self s) = Some f
  | LExpr e => target_loss (self s) = Some e ∧ target_loss_fn (self s) = None
  | LNone => target_loss (self s) = None ∧ target_loss_fn (self s) = None
  end ∧
  ¬ (is_Some (target_loss (self s)) ∧ is_Some (target_loss_fn (self s))).
Proof.
  intros Hrun. apply Pattern_init_inv in Hrun as (il & iv & _ & _ & ->).
  cbn [self Pattern_fields target_loss target_loss_fn].
  destruct (a_target_loss a) as [|e|f]; cbn [isfunction expr_of fn_of];
    (split; [done|]); intros [[? ?] [? ?]]; done.
Qed.

(** ** Lazy construction of the target loss *)

(** C5, as the code has it: on a pattern with [input_var] and [target_var]
    set that has a loss function of its own or whose class defines a default
    target objective, the first call of [_create_target_objective] replaces
    a [None] target loss by [mean(loss_fn(output, target))]; every later call
    leaves the state as it is. *)
Theorem create_target_objective_idempotent (s : state) (fn : loss_fn)
    (v t : var) (output target : option expr) :
  input_var (self s) = Some v →
  target_var (self s) = Some t →
  target_loss (self s) = None →
  target_objective (self s) = Ok fn →
  let out := default (ELayer (psi (self s)) (ELayer (phi (self s)) (EVar v)))
                     output in
  let tgt := default (EVar t) target in
  let s1 := MkState (heap s)
              (set_target_loss (Some (EMean (ECall fn out tgt))) (self s)) in
  _create_target_objective output target s = (Ok tt, s1) ∧
  target_loss (self s1) = Some (EMean (ECall fn out tgt)) ∧
  ∀ output' target', _create_target_objective output' target' s1 = (Ok tt, s1).
Proof.
  intros Hv Ht Hl Hfn out tgt s1. repeat apply conj.
  - unfold _create_target_objective. run_monad.
    rewrite Hv, Ht, Hl, Hfn.
    unfold get_psi_output_for. cbn [fmap option_fmap option_map
      Layer_get_output_for res_bind].
    rewrite !bool_decide_true by done.
    subst out tgt s1. by destruct output, target; run_monad.
  - done.
  - intros output' target'. unfold _create_target_objective. run_monad.
    subst s1. cbn [self set_target_loss input_var target_loss].
    rewrite Hv. unfold get_psi_output_for. cbn [fmap option_fmap option_map
      Layer_get_output_for res_bind].
    by destruct output'; run_monad.
Qed.

(** ** The pairwise constructor *)

(** C7: when the base constructor accepts the other arguments, constructing
    a pairwise pattern without [context_transform_var] raises
    [AssertionError] in the state the base constructor left: the loss slots
    hold only what the caller passed as ready expressions, no loss has been
    built. *)
Theorem pairwise_requires_context_transform_var (c : pattern_class)
    (a : args) (h : gmap layer_ref layer) (s : state) :
  c ≠ Pattern →
  Pattern_init get_all_layers a (MkState h (new_object c a)) = (Ok tt, s) →
  construct get_all_layers c None a h = (Raise AssertionError, s) ∧
  target_loss (self s) = expr_of (a_target_loss a) ∧
  context_loss (self s) = expr_of (a_context_loss a).
Proof.
  intros Hc Hinit.
  assert (construct get_all_layers c None a h
          = PairwiseTransformationPattern_init get_all_layers None a (MkState h (new_object c a)))
    as -> by (by destruct c).
  pose proof Hinit as (il & iv & Hil & Hiv & ->)%Pattern_init_inv.
  repeat apply conj.
  - unfold PairwiseTransformationPattern_init.
    unfold bind at 1. unfold modify_self at 1. cbn [heap self].
    change (set_context_input_layer None (new_object c a)) with (new_object c a).
    unfold bind at 1. rewrite Hinit. by run_monad.
  - cbn [self Pattern_fields target_loss].
    by destruct (a_target_loss a).
  - cbn [self Pattern_fields context_loss].
    by destruct (a_context_loss a).
Qed.

(** ** Role tags *)

Lemma tag_param_phi (e : param * gset string) :
  tag_param "phi" e = (e.1, e.2 ∪ {["phi"]}).
Proof. done. Qed.

Lemma tag_param_skip (fun_name : string) (e : param * gset string) :
  fun_name ≠ "phi" → "phi" ∈ e.2 → tag_param fun_name e = e.
Proof.
  intros Hne Hin. unfold tag_param.
  by rewrite !bool_decide_true.
Qed.

Lemma union_singleton_twice (X : gset string) (t : string) :
  X ∪ {[t]} ∪ {[t]} = X ∪ {[t]}.
Proof. rewrite <- (assoc_L (∪)). f_equal. apply (idemp_L (∪)). Qed.

Lemma tag_param_idemp (fun_name : string) (e : param * gset string) :
  tag_param fun_name (tag_param fun_name e) = tag_param fun_name e.
Proof.
  unfold tag_param.
  destruct (bool_decide (fun_name ≠ "phi")) eqn:Hne;
    destruct (bool_decide ("phi" ∈ e.2)) eqn:Hin; cbn [andb];
    rewrite ?Hne, ?Hin; cbn [andb fst snd]; try done.
  - apply bool_decide_eq_true in Hne. apply bool_decide_eq_false in Hin.
    rewrite bool_decide_false.
    + cbn [andb]. f_equal. apply union_singleton_twice.
    + rewrite elem_of_union, elem_of_singleton.
      intros [H|H]; [exact (Hin H) | exact (Hne (eq_sym H))].
  - f_equal. apply union_singleton_twice.
  - f_equal. apply union_singleton_twice.
Qed.

Lemma tag_layer_idemp (fun_name : string) (l : layer) :
  tag_layer fun_name (tag_layer fun_name l) = tag_layer fun_name l.
Proof.
  unfold tag_layer. cbn [l_input_layer l_input_var l_shape l_params].
  f_equal. rewrite <- list_fmap_compose.
  apply list_fmap_ext. intros i e _. apply tag_param_idemp.
Qed.

Lemma tag_layer_after_phi (fun_name : string) (l : layer) :
  fun_name ≠ "phi" →
  tag_layer fun_name (tag_layer "phi" l) = tag_layer "phi" l.
Proof.
  intros Hne. unfold tag_layer.
  cbn [l_input_layer l_input_var l_shape l_params].
  f_equal. rewrite <- list_fmap_compose.
  apply list_fmap_ext. intros i e _. cbn [compose].
  apply tag_param_skip; [done|]. rewrite tag_param_phi. set_solver.
Qed.

Lemma tag_layer_inhabitant (fun_name : string) :
  tag_layer fun_name inhabitant = inhabitant.
Proof. done. Qed.

Lemma lookup_total_alter_tag (fun_name : string) (l : layer_ref)
    (h : gmap layer_ref layer) :
  alter (tag_layer fun_name) l h !!! l = tag_layer fun_name (h !!! l).
Proof.
  rewrite lookup_total_alter_eq, lookup_total_alt.
  by destruct (h !! l).
Qed.

(** A tagging pass applies [tag_layer] to the layers it visits and leaves
    the others alone. *)
Lemma tag_layers_lookup (fun_name : string) (ls : list layer_ref)
    (h : gmap layer_ref layer) (l : layer_ref) :
  tag_layers fun_name ls h !!! l
  = if decide (l ∈ ls) then tag_layer fun_name (h !!! l) else h !!! l.
Proof.
  unfold tag_layers. revert h.
  induction ls as [|x ls IH]; intros h; cbn [foldl].
  - rewrite decide_False; [done|]. apply not_elem_of_nil.
  - rewrite IH. destruct (decide (x = l)) as [->|Hne].
    + rewrite lookup_total_alter_tag, tag_layer_idemp.
      rewrite (decide_True (P := l ∈ l :: ls)) by apply list_elem_of_here.
      by destruct (decide (l ∈ ls)).
    + rewrite lookup_total_alter_ne by done.
      destruct (decide (l ∈ ls)) as [Hin|Hnin].
      * rewrite decide_True; [done|]. by apply list_elem_of_further.
      * rewrite decide_False; [done|].
        rewrite elem_of_cons.
        intros [H|H]; [exact (Hne (eq_sym H)) | exact (Hnin H)].
Qed.

(** After the three passes a layer of phi's graph is tagged "phi" and
    nothing else has been added to it. *)
Lemma tagged_phi_layer (a : args) (h : gmap layer_ref layer) (l : layer_ref) :
  l ∈ get_all_layers (a_phi a) →
  tagged get_all_layers a h !!! l = tag_layer "phi" (h !!! l).
Proof.
  intros Hin. unfold tagged. rewrite !tag_layers_lookup.
  rewrite (decide_True (P := l ∈ get_all_layers (a_phi a))) by done.
  destruct (decide (l ∈ get_all_layers (a_psi a)));
    destruct (decide (l ∈ all_layers_of get_all_layers (a_beta a)));
    by rewrite ?tag_layer_after_phi.
Qed.

(** C3, as the code has it: for every layer of phi's graph and every entry
    of its [params], construction adds the tag "phi" and nothing else: the
    entry's tag set afterwards is its tag set before together with "phi".
    So it carries "phi", and it carries "psi" or "beta" only if it did so
    before the constructor ran; the passes for psi and beta skip it. *)
Theorem construction_tags_phi_only (c : pattern_class)
    (a : args) (h : gmap layer_ref layer) (s : state)
    (l : layer_ref) (i : nat) (q : param) (ts : gset string) :
  Pattern_init get_all_layers a (MkState h (new_object c a)) = (Ok tt, s) →
  l ∈ get_all_layers (a_phi a) →
  l_params (h !!! l) !! i = Some (q, ts) →
  l_params (heap s !!! l) !! i = Some (q, ts ∪ {["phi"]}) ∧
  "phi" ∈ ts ∪ {["phi"]} ∧
  (∀ role, role ≠ "phi" → role ∈ ts ∪ {["phi"]} → role ∈ ts).
Proof.
  intros (il & iv & _ & _ & ->)%Pattern_init_inv Hin Hentry.
  cbn [heap]. rewrite tagged_phi_layer by done.
  unfold tag_layer. cbn [l_params].
  rewrite list_lookup_fmap, Hentry. cbn [fmap option_fmap option_map].
  rewrite tag_param_phi. cbn [fst snd].
  repeat apply conj; [done| |].
  - apply elem_of_union_r. by apply elem_of_singleton.
  - intros role Hne [Hts|Hphi%elem_of_singleton]%elem_of_union; done.
Qed.

(** ** What the constructors leave behind *)

Lemma bind_ok_inv {A B} (m : M A) (k : A → M B) (s s' : state) (b : B) :
  bind m k s = (Ok b, s') →
  ∃ x s1, m s = (Ok x, s1) ∧ k x s1 = (Ok b, s').
Proof.
  unfold bind. destruct (m s) as [[x|e] s1]; [eauto|done].
Qed.

Lemma create_target_objective_frame (output target : option expr)
    (s s' : state) (r : res unit) :
  _create_target_objective output target s = (r, s') → same_frame s s'.
Proof.
  unfold _create_target_objective, same_frame. intros H. run_monad.
  repeat first [ case_match | progress simplify_eq | progress run_monad ];
    done.
Qed.

Lemma create_context_objective_frame (s s' : state) (r : res unit) :
  _create_context_objective s = (r, s') → same_frame s s'.
Proof.
  unfold _create_context_objective, same_frame. intros H. run_monad.
  repeat first [ case_match | progress simplify_eq | progress run_monad ];
    done.
Qed.

Lemma construct_ok_frame (c : pattern_class) (ctv : option var) (a : args)
    (h : gmap layer_ref layer) (s : state) :
  construct get_all_layers c ctv a h = (Ok tt, s) →
  heap s = tagged get_all_layers a h ∧
  cls (self s) = c ∧
  context_input_layer (self s) = None ∧
  context_shape (self s) = None.
Proof.
  intros Hrun.
  destruct (decide (c = Pattern)) as [->|Hc].
  { by apply Pattern_init_inv in Hrun as (il & iv & _ & _ & ->). }
  assert (PairwiseTransformationPattern_init get_all_layers ctv a (MkState h (new_object c a))
          = (Ok tt, s)) as Hrun' by (by destruct c).
  clear Hrun. unfold PairwiseTransformationPattern_init in Hrun'.
  apply bind_ok_inv in Hrun' as ([] & s1 & H1 & Hrun').
  apply bind_ok_inv in Hrun' as ([] & s2 & H2 & Hrun').
  apply bind_ok_inv in Hrun' as ([] & s3 & H3 & Hrun').
  apply bind_ok_inv in Hrun' as (p & s4 & H4 & Hrun').
  apply bind_ok_inv in Hrun' as ([] & s5 & H5 & Hrun').
  apply bind_ok_inv in Hrun' as ([] & s6 & H6 & H7).
  unfold modify_self in H1. injection H1 as <-.
  apply Pattern_init_inv in H2 as (il & iv & _ & _ & ->).
  unfold modify_self in H3. injection H3 as <-.
  unfold get_self in H4. injection H4 as <- <-.
  assert (s5 = MkState (tagged get_all_layers a h)
     (set_context_transform_var ctv
        (Pattern_fields (set_context_input_layer None (new_object c a)) a il iv)))
    as -> by (run_monad; case_match; by simplify_eq).
  apply create_target_objective_frame in H6 as (Hh6 & Hc6 & Hl6 & Hs6).
  apply create_context_objective_frame in H7 as (Hh7 & Hc7 & Hl7 & Hs7).
  rewrite Hh7, Hc7, Hl7, Hs7, Hh6, Hc6, Hl6, Hs6. done.
Qed.

(** ** The default input layer of beta *)

(** C9, as the code has it: no constructor assigns [context_shape], so on a
    [PairwisePredictTransformationPattern] that has just been constructed
    the first access to [default_beta_input] raises [AttributeError] and
    changes nothing: no input layer is made or cached. *)
Theorem default_beta_input_after_construction (ctv : option var) (a : args)
    (h : gmap layer_ref layer) (s : state) :
  construct get_all_layers PairwisePredictTransformationPattern ctv a h = (Ok tt, s) →
  default_beta_input s = (Raise AttributeError, s) ∧
  context_input_layer (self s) = None.
Proof.
  intros (Hh & Hc & Hl & Hs)%construct_ok_frame.
  unfold default_beta_input. run_monad.
  by rewrite Hc, Hl, Hs, bool_decide_true.
Qed.

End Properties.

(** * The properties at work on the concrete model *)


Example example_base_constructed :
  (construct example_layers Pattern None example_args example_heap).1 = Ok tt.
Proof. vm_compute. reflexivity. Qed.

Example example_pairwise_constructed :
  construct example_layers PairwisePredictTransformationPattern
    (Some c_ij) example_args example_heap = (Ok tt, example_pairwise).
Proof. vm_compute. reflexivity. Qed.

Example example_pairwise_target_loss :
  target_loss (self example_pairwise)
  = Some (EMean (ECall categorical_crossentropy
                   (ELayer 3 (ELayer 1 (EVar x_i))) (EVar y))).
Proof. vm_compute. reflexivity. Qed.

Example example_pairwise_context_loss :
  context_loss (self example_pairwise)
  = Some (EMean (ECall squared_error
                   (ESub (ELayer 1 (EVar x_i)) (ELayer 1 (EVar x_j)))
                   (EVar c_ij))).
Proof. vm_compute. reflexivity. Qed.

Example example_pairwise_params :
  get_params (heap example_pairwise) (self example_pairwise) ∅ = [30; 10; 11] ∧
  get_params (heap example_pairwise) (self example_pairwise) {["phi" := true]}
    = [10; 11] ∧
  get_params (heap example_pairwise) (self example_pairwise) {["phi" := false]}
    = [30] ∧
  get_params (heap example_pairwise) (self example_pairwise)
    {["regularizable" := true]} = [10].
Proof. repeat apply conj; vm_compute; reflexivity. Qed.

(** ** The properties applied to it *)

Lemma training_loss_weighted_sum_witness :
  target_loss (self example_pairwise)
    = Some (EMean (ECall categorical_crossentropy
                     (ELayer 3 (ELayer 1 (EVar x_i))) (EVar y))) ∧
  context_loss (self example_pairwise)
    = Some (EMean (ECall squared_error
                     (ESub (ELayer 1 (EVar x_i)) (ELayer 1 (EVar x_j)))
                     (EVar c_ij))) ∧
  result_value example_var_val example_layer_fun example_loss_fun
      (training_loss (self example_pairwise) 1 0)
    = Some (denote example_var_val example_layer_fun example_loss_fun
              (EMean (ECall categorical_crossentropy
                        (ELayer 3 (ELayer 1 (EVar x_i))) (EVar y)))).
Proof.
  assert (target_loss (self example_pairwise)
          = Some (EMean (ECall categorical_crossentropy
                           (ELayer 3 (ELayer 1 (EVar x_i))) (EVar y))))
    as Ht by (vm_compute; reflexivity).
  assert (context_loss (self example_pairwise)
          = Some (EMean (ECall squared_error
                           (ESub (ELayer 1 (EVar x_i)) (ELayer 1 (EVar x_j)))
                           (EVar c_ij))))
    as Hc by (vm_compute; reflexivity).
  split; [exact Ht|]. split; [exact Hc|].
  exact (proj1 (proj2 (proj2 (proj2 (proj2
    (training_loss_weighted_sum example_var_val example_layer_fun
       example_loss_fun (self example_pairwise) _ _ Ht Hc)))))).
Defined.

Lemma get_beta_output_for_difference_witness :
  cls (self example_pairwise) = PairwisePredictTransformationPattern ∧
  get_beta_output_for (self example_pairwise) (Some (EVar x_i)) (Some (EVar x_j))
    = Ok (ESub (ELayer 1 (EVar x_i)) (ELayer 1 (EVar x_j))).
Proof.
  assert (cls (self example_pairwise) = PairwisePredictTransformationPattern)
    as Hcls by (vm_compute; reflexivity).
  split; [exact Hcls|].
  exact (proj1 (proj1
    (get_beta_output_for_difference example_var_val example_layer_fun
       example_loss_fun (self example_pairwise) (EVar x_i) (EVar x_j) Hcls)
    eq_refl)).
Defined.

Lemma Pattern_init_target_loss_slots_witness :
  construct example_layers Pattern None example_args_fn example_heap
    = (Ok tt, (construct example_layers Pattern None example_args_fn
                 example_heap).2) ∧
  target_loss
    (self (construct example_layers Pattern None example_args_fn example_heap).2)
    = None ∧
  target_loss_fn
    (self (construct example_layers Pattern None example_args_fn example_heap).2)
    = Some (UserFn 7).
Proof.
  assert (construct example_layers Pattern None example_args_fn example_heap
          = (Ok tt, (construct example_layers Pattern None example_args_fn
                       example_heap).2))
    as Hrun by (vm_compute; reflexivity).
  split; [exact Hrun|].
  exact (proj1 (Pattern_init_target_loss_slots example_layers example_args_fn
                  example_heap _ Hrun)).
Defined.

Lemma create_target_objective_idempotent_witness :
  input_var (self example_base_fn) = Some x_i ∧
  target_var (self example_base_fn) = Some y ∧
  target_loss (self example_base_fn) = None ∧
  target_objective (self example_base_fn) = Ok (UserFn 7) ∧
  _create_target_objective None None example_base_fn
    = (Ok tt,
       MkState (heap example_base_fn)
         (set_target_loss
            (Some (EMean (ECall (UserFn 7) (ELayer 3 (ELayer 1 (EVar x_i)))
                            (EVar y))))
            (self example_base_fn))).
Proof.
  assert (input_var (self example_base_fn) = Some x_i) as Hv
    by (vm_compute; reflexivity).
  assert (target_var (self example_base_fn) = Some y) as Ht
    by (vm_compute; reflexivity).
  assert (target_loss (self example_base_fn) = None) as Hl
    by (vm_compute; reflexivity).
  assert (target_objective (self example_base_fn) = Ok (UserFn 7)) as Hfn
    by (vm_compute; reflexivity).
  split; [exact Hv|]. split; [exact Ht|]. split; [exact Hl|].
  split; [exact Hfn|].
  exact (proj1 (create_target_objective_idempotent example_base_fn (UserFn 7)
                  x_i y None None Hv Ht Hl Hfn)).
Defined.

Lemma pairwise_requires_context_transform_var_witness :
  PairwisePredictTransformationPattern ≠ Pattern ∧
  (construct example_layers PairwisePredictTransformationPattern None
     example_args example_heap).1 = Raise AssertionError ∧
  target_loss
    (self (construct example_layers PairwisePredictTransformationPattern None
             example_args example_heap).2) = None.
Proof.
  assert (PairwisePredictTransformationPattern ≠ Pattern) as Hc by discriminate.
  assert (Pattern_init example_layers example_args
            (MkState example_heap
               (new_object PairwisePredictTransformationPattern example_args))
          = (Ok tt, (Pattern_init example_layers example_args
                       (MkState example_heap
                          (new_object PairwisePredictTransformationPattern
                             example_args))).2))
    as Hinit by (vm_compute; reflexivity).
  split; [exact Hc|].
  destruct (pairwise_requires_context_transform_var example_layers
              PairwisePredictTransformationPattern example_args example_heap
              _ Hc Hinit) as (Hrun & Ht & _).
  rewrite Hrun. split; [reflexivity|]. exact Ht.
Defined.

Lemma construction_tags_phi_only_witness :
  1 ∈ example_layers (a_phi example_args) ∧
  l_params (example_heap !!! 1) !! 0
    = Some (10, {["trainable"; "regularizable"]}) ∧
  l_params (heap example_base !!! 1) !! 0
    = Some (10, {["trainable"; "regularizable"]} ∪ {["phi"]}).
Proof.
  assert (1 ∈ example_layers (a_phi example_args)) as Hin
    by (apply list_elem_of_further, list_elem_of_here).
  assert (l_params (example_heap !!! 1) !! 0
          = Some (10, {["trainable"; "regularizable"]})) as Hentry
    by (vm_compute; reflexivity).
  assert (Pattern_init example_layers example_args
            (MkState example_heap (new_object Pattern example_args))
          = (Ok tt, example_base)) as Hinit by (vm_compute; reflexivity).
  split; [exact Hin|]. split; [exact Hentry|].
  exact (proj1 (construction_tags_phi_only example_layers Pattern example_args
                  example_heap example_base 1 0 10 _ Hinit Hin Hentry)).
Defined.

Lemma default_beta_input_after_construction_witness :
  construct example_layers PairwisePredictTransformationPattern (Some c_ij)
    example_args example_heap = (Ok tt, example_pairwise) ∧
  default_beta_input example_pairwise = (Raise AttributeError, example_pairwise).
Proof.
  assert (construct example_layers PairwisePredictTransformationPattern
            (Some c_ij) example_args example_heap = (Ok tt, example_pairwise))
    as Hrun by (vm_compute; reflexivity).
  split; [exact Hrun|].
  exact (proj1 (default_beta_input_after_construction example_layers
                  (Some c_ij) example_args example_heap _ Hrun)).
Defined.

(** ** Where the stated claims fail *)

(** C3 as stated fails when a layer served as psi before: the first pattern
    (phi = layer 1, psi = layer 3) tags layer 3's parameter "psi"; a second
    pattern with phi = layer 3 adds "phi" to it, and the parameter of phi
    then carries both tags. *)
Lemma phi_parameter_keeps_earlier_psi_tag :
  construct example_layers Pattern None example_args example_heap
    = (Ok tt, example_base) ∧
  construct example_layers Pattern None second_args (heap example_base)
    = (Ok tt, example_second) ∧
  3 ∈ example_layers (a_phi second_args) ∧
  l_params (example_heap !!! 3) = [(30, {["trainable"]})] ∧
  l_params (heap example_second !!! 3)
    = [(30, {["trainable"]} ∪ {["psi"]} ∪ {["phi"]})] ∧
  "phi" ∈ ({["trainable"]} ∪ {["psi"]} ∪ {["phi"]} : gset string) ∧
  "psi" ∈ ({["trainable"]} ∪ {["psi"]} ∪ {["phi"]} : gset string).
Proof.
  repeat apply conj; try (vm_compute; reflexivity).
  apply list_elem_of_further, list_elem_of_here.
Qed.

(** C4 as stated fails when no [target_loss] argument is given: both slots
    are [None] after construction. *)
Lemma no_target_loss_argument_leaves_both_slots_null :
  construct example_layers Pattern None example_args example_heap
    = (Ok tt, example_base) ∧
  a_target_loss example_args = LNone ∧
  target_loss (self example_base) = None ∧
  target_loss_fn (self example_base) = None.
Proof. repeat apply conj; vm_compute; reflexivity. Qed.

(** C5 as stated fails on a pattern of the base class without a loss
    function: [input_var] and [target_var] are set, and the first call of
    [_create_target_objective] raises and leaves [target_loss] [None]. *)
Lemma base_pattern_cannot_build_target_loss :
  input_var (self example_base) = Some x_i ∧
  target_var (self example_base) = Some y ∧
  target_loss (self example_base) = None ∧
  _create_target_objective None None example_base
    = (Raise TypeError, example_base).
Proof. repeat apply conj; vm_compute; reflexivity. Qed.

(** C8 as stated fails when both weights are zero: the context weight is
    zero and only the context loss is missing, yet the call raises. *)
Lemma both_weights_zero_needs_context_loss :
  is_Some (target_loss (self example_base_expr)) ∧
  context_loss (self example_base_expr) = None ∧
  training_loss (self example_base_expr) 0 0 = Raise TypeError ∧
  ¬ succeeds (training_loss (self example_base_expr) 0 0).
Proof.
  assert (training_loss (self example_base_expr) 0 0 = Raise TypeError) as Hr
    by (vm_compute; reflexivity).
  split; [eexists; vm_compute; reflexivity|].
  split; [vm_compute; reflexivity|].
  split; [exact Hr|].
  rewrite Hr. intros [e He]. discriminate He.
Qed.

(** * Further properties of the code *)

Section FurtherProperties.

Variable get_all_layers : layer_ref → list layer_ref.

(** ** The loss builders *)

Lemma same_wiring_refl (p : pattern) : same_wiring p p.
Proof. by repeat split. Qed.

Lemma same_wiring_trans (p q r : pattern) :
  same_wiring p q → same_wiring q r → same_wiring p r.
Proof.
  unfold same_wiring. intros Hpq Hqr. destruct_and!.
  repeat split; congruence.
Qed.

Lemma create_target_objective_wiring (output target : option expr)
    (s s' : state) (r : res unit) :
  _create_target_objective output target s = (r, s') →
  heap s' = heap s ∧ same_wiring (self s) (self s') ∧
  context_loss (self s') = context_loss (self s).
Proof.
  unfold _create_target_objective, same_wiring. intros H. run_monad.
  repeat first [ case_match | progress simplify_eq | progress run_monad ];
    done.
Qed.

Lemma create_context_objective_wiring (s s' : state) (r : res unit) :
  _create_context_objective s = (r, s') →
  heap s' = heap s ∧ same_wiring (self s) (self s') ∧
  target_loss (self s') = target_loss (self s).
Proof.
  unfold _create_context_objective, same_wiring. intros H. run_monad.
  repeat first [ case_match | progress simplify_eq | progress run_monad ];
    done.
Qed.

(** A builder that returns normally leaves its loss set. *)
Lemma create_target_objective_sets (output target : option expr)
    (s s' : state) :
  _create_target_objective output target s = (Ok tt, s') →
  is_Some (target_loss (self s')).
Proof.
  unfold _create_target_objective. intros H. run_monad.
  repeat first [ case_match | progress simplify_eq | progress run_monad ];
    try done; simpl_fields; eauto.
Qed.

Lemma create_context_objective_sets (s s' : state) :
  _create_context_objective s = (Ok tt, s') →
  is_Some (context_loss (self s')).
Proof.
  unfold _create_context_objective. intros H. run_monad.
  repeat first [ case_match | progress simplify_eq | progress run_monad ];
    try done; simpl_fields; eauto.
Qed.

(** X8: while the target loss is not set, [_create_target_objective] insists
    on [self.target_var]: without it the call raises [AssertionError] and
    changes nothing, even when a target is passed in explicitly.  Once the
    target loss is set, the call returns normally whatever [target_var]
    is. *)
Theorem create_target_objective_needs_target_var (s : state) (v : var)
    (output target : option expr) :
  input_var (self s) = Some v →
  (target_loss (self s) = None → target_var (self s) = None →
     _create_target_objective output target s = (Raise AssertionError, s)) ∧
  (is_Some (target_loss (self s)) →
     _create_target_objective output target s = (Ok tt, s)).
Proof.
  intros Hv. split.
  - intros Hl Ht. unfold _create_target_objective. run_monad.
    rewrite Hv, Hl, Ht. unfold get_psi_output_for.
    cbn [fmap option_fmap option_map Layer_get_output_for res_bind].
    by destruct output; run_monad.
  - intros [e He]. unfold _create_target_objective. run_monad.
    rewrite Hv, He. unfold get_psi_output_for.
    cbn [fmap option_fmap option_map Layer_get_output_for res_bind].
    by destruct output; run_monad.
Qed.

(** X9: on a [PairwisePredictTransformationPattern] with [input_var],
    [context_var] and [context_transform_var] set and an objective at hand,
    the first call of [_create_context_objective] sets the context loss to
    [mean(fn(beta_output(input_var, context_var), context_transform_var))]
    and leaves the target loss alone; a second call changes nothing. *)
Theorem create_context_objective_idempotent (s : state) (fn : loss_fn)
    (v x c : var) :
  cls (self s) = PairwisePredictTransformationPattern →
  input_var (self s) = Some v →
  context_var (self s) = Some x →
  context_transform_var (self s) = Some c →
  context_loss (self s) = None →
  context_objective (self s) = Ok fn →
  let loss := EMean (ECall fn (beta_expr (self s) (EVar v) (EVar x)) (EVar c)) in
  let s1 := MkState (heap s) (set_context_loss (Some loss) (self s)) in
  _create_context_objective s = (Ok tt, s1) ∧
  target_loss (self s1) = target_loss (self s) ∧
  _create_context_objective s1 = (Ok tt, s1).
Proof.
  intros Hcls Hv Hx Hc Hl Hfn loss s1. repeat apply conj.
  - unfold _create_context_objective. run_monad.
    rewrite Hl, Hv, Hx, Hfn, Hc.
    unfold get_beta_output_for, PairwisePredict_get_beta_output_for.
    rewrite Hcls.
    cbn [fmap option_fmap option_map Layer_get_output_for res_bind].
    rewrite !bool_decide_true by done. run_monad.
    subst loss s1. unfold beta_expr.
    by destruct (beta (self s)); run_monad.
  - done.
  - by subst s1.
Qed.

(** X10: [PairwiseTransformationPattern] leaves [get_beta_output_for]
    abstract, so on an object of that very class a missing context loss
    cannot be built: the call raises [NotImplementedError] and changes
    nothing. *)
Theorem create_context_objective_abstract_beta (s : state) (v x : var) :
  cls (self s) = PairwiseTransformationPattern →
  input_var (self s) = Some v →
  context_var (self s) = Some x →
  context_loss (self s) = None →
  _create_context_objective s = (Raise NotImplementedError, s).
Proof.
  intros Hcls Hv Hx Hl. unfold _create_context_objective. run_monad.
  rewrite Hl, Hv, Hx. rewrite !bool_decide_true by done. run_monad.
  unfold context_objective, default_context_objective, get_beta_output_for.
  rewrite Hcls. by destruct (context_loss_fn (self s)); run_monad.
Qed.

(** ** The constructors, step by step *)

Lemma phi_input_Some (h : gmap layer_ref layer) (a : args)
    (il : layer_ref) (iv : var) :
  phi_input h a = Some (il, iv) ↔
  l_input_layer (h !!! a_phi a) = Some il ∧ l_input_var (h !!! il) = Some iv.
Proof.
  unfold phi_input. split.
  - destruct (l_input_layer (h !!! a_phi a)) as [il'|]; [|done].
    destruct (l_input_var (h !!! il')) as [iv'|] eqn:Hiv; [|done].
    by intros [= <- <-].
  - intros [-> ->]. done.
Qed.

Lemma Pattern_init_fails (a : args) (s : state) :
  phi_input (heap s) a = None →
  Pattern_init get_all_layers a s = (Raise AttributeError, s).
Proof.
  unfold phi_input, Pattern_init. run_monad.
  destruct (l_input_layer (heap s !!! a_phi a)) as [il|]; run_monad; [|done].
  by destruct (l_input_var (heap s !!! il)); run_monad.
Qed.

(** The state in which a pairwise constructor reaches its assertion. *)
Lemma pairwise_init_step (c : pattern_class) (ctv : option var) (a : args)
    (h : gmap layer_ref layer) (il : layer_ref) (iv : var) :
  c ≠ Pattern →
  phi_input h a = Some (il, iv) →
  let s1 := MkState (tagged get_all_layers a h)
              (set_context_transform_var ctv
                 (Pattern_fields (new_object c a) a il iv)) in
  construct get_all_layers c ctv a h
  = match ctv with
    | None => (Raise AssertionError, s1)
    | Some _ =>
        bind (_create_target_objective None None)
             (λ _, _create_context_objective) s1
    end.
Proof.
  intros Hc [Hil Hiv]%phi_input_Some s1.
  assert (construct get_all_layers c ctv a h
          = PairwiseTransformationPattern_init get_all_layers ctv a
              (MkState h (new_object c a))) as -> by (by destruct c).
  unfold PairwiseTransformationPattern_init.
  unfold bind at 1. unfold modify_self at 1. cbn [heap self].
  change (set_context_input_layer None (new_object c a)) with (new_object c a).
  unfold bind at 1.
  rewrite (Pattern_init_ok get_all_layers a _ il iv) by done.
  unfold bind at 1. unfold modify_self at 1. cbn [heap self].
  unfold bind at 1. unfold get_self at 1.
  unfold bind at 1.
  change (context_transform_var
            (self {| heap := tagged get_all_layers a h;
                     self := set_context_transform_var ctv
                               (Pattern_fields (new_object c a) a il iv) |}))
    with ctv.
  destruct ctv as [cv|].
  - rewrite bool_decide_true by done. unfold assert, ret. done.
  - rewrite bool_decide_false by (by intros []). done.
Qed.

(** X12: with phi on an input layer and [context_transform_var] given, the
    constructor of [PairwisePredictTransformationPattern] returns normally
    exactly when a target loss is to be had (a ready expression, or
    [target_var] to build one) and a context loss is to be had (a ready
    expression, or [context_var]); the object then holds those two losses,
    a ready expression unchanged and a built one as the mean objective (the
    caller's function, else cross-entropy and squared error).  In every
    other case it raises [AssertionError]. *)
Theorem pairwise_predict_construct (cv : var) (a : args)
    (h : gmap layer_ref layer) (il : layer_ref) (iv : var) :
  phi_input h a = Some (il, iv) →
  let run := construct get_all_layers PairwisePredictTransformationPattern
               (Some cv) a h in
  (∀ tl cl,
     built_target_loss a iv = Some tl →
     built_context_loss a iv cv = Some cl →
     run.1 = Ok tt ∧
     heap run.2 = tagged get_all_layers a h ∧
     target_loss (self run.2) = Some tl ∧
     context_loss (self run.2) = Some cl) ∧
  (built_target_loss a iv = None ∨ built_context_loss a iv cv = None →
     run.1 = Raise AssertionError).
Proof.
  intros Hwf run. subst run.
  rewrite (pairwise_init_step _ _ a h il iv) by done.
  destruct a as [ph ps be tv xv tl cl nm]. clear Hwf.
  split.
  - intros tl' cl'.
    destruct tl as [|e|f], tv as [t|], cl as [|e'|f'], xv as [x|], be as [b|];
      crunch_builders; intros; simplify_eq; done.
  - destruct tl as [|e|f], tv as [t|], cl as [|e'|f'], xv as [x|], be as [b|];
      crunch_builders; intros [|]; simplify_eq; done.
Qed.

(** ** What tagging does to the store *)

Lemma tag_param_add (fun_name : string) (e : param * gset string) :
  "phi" ∉ e.2 → tag_param fun_name e = (e.1, e.2 ∪ {[fun_name]}).
Proof.
  intros Hnin. unfold tag_param.
  by rewrite (bool_decide_false ("phi" ∈ e.2)), andb_false_r.
Qed.

Lemma tag_param_has_phi (fun_name : string) (e : param * gset string) :
  "phi" ∈ e.2 → tag_param fun_name e = e.
Proof.
  intros Hin. destruct (decide (fun_name = "phi")) as [->|Hne].
  - rewrite tag_param_phi. destruct e as [q ts]. cbn [fst snd] in *.
    f_equal. rewrite (comm_L (∪)).
    apply subseteq_union_1_L. by apply singleton_subseteq_l.
  - by apply tag_param_skip.
Qed.

(** An entry that carries "phi" is left as it is by all three passes. *)
Lemma tag_entry_has_phi (b1 b2 b3 : bool) (e : param * gset string) :
  "phi" ∈ e.2 → tag_entry b1 b2 b3 e = e.
Proof.
  intros Hin. unfold tag_entry, retag.
  destruct b1, b2, b3; by repeat rewrite (tag_param_has_phi _ e) by done.
Qed.

(** An entry of a layer of phi's graph gets "phi" and nothing else. *)
Lemma tag_entry_in_phi (b2 b3 : bool) (e : param * gset string) :
  tag_entry true b2 b3 e = (e.1, e.2 ∪ {["phi"]}).
Proof.
  unfold tag_entry, retag. rewrite tag_param_phi.
  assert ("phi" ∈ ((e.1, e.2 ∪ {["phi"]}) : param * gset string).2) as Hin
    by (apply elem_of_union_r; by apply elem_of_singleton).
  destruct b2, b3;
    by repeat rewrite (tag_param_has_phi _ (e.1, e.2 ∪ {["phi"]})) by done.
Qed.

(** An entry without "phi" outside phi's graph gets the roles of the graphs
    its layer lies in. *)
Lemma tag_entry_out_phi (b2 b3 : bool) (e : param * gset string) :
  "phi" ∉ e.2 →
  tag_entry false b2 b3 e
  = (e.1, e.2 ∪ (if b2 then {["psi"]} else ∅) ∪ (if b3 then {["beta"]} else ∅)).
Proof.
  intros Hnin. destruct e as [q ts]. cbn [fst snd] in *.
  unfold tag_entry, retag.
  assert ("phi" ∉ ts ∪ {["psi"]}) as Hnin'.
  { rewrite elem_of_union, elem_of_singleton. intros [?|?]; done. }
  destruct b2, b3;
    repeat rewrite (tag_param_add _ (q, ts)) by done;
    repeat rewrite (tag_param_add _ (q, ts ∪ {["psi"]})) by done;
    cbn [fst snd]; f_equal; by rewrite ?(right_id_L ∅ (∪)).
Qed.

Lemma tag_entry_key (b1 b2 b3 : bool) (e : param * gset string) :
  (tag_entry b1 b2 b3 e).1 = e.1.
Proof.
  destruct (decide ("phi" ∈ e.2)) as [Hin|Hnin].
  - by rewrite tag_entry_has_phi.
  - destruct b1; [by rewrite tag_entry_in_phi|by rewrite tag_entry_out_phi].
Qed.

Lemma tag_entry_grows (b1 b2 b3 : bool) (e : param * gset string) :
  e.2 ⊆ (tag_entry b1 b2 b3 e).2 ∧
  (tag_entry b1 b2 b3 e).2 ⊆ e.2 ∪ role_tags.
Proof.
  destruct (decide ("phi" ∈ e.2)) as [Hin|Hnin].
  - rewrite tag_entry_has_phi by done. split; [done|apply union_subseteq_l].
  - unfold role_tags. destruct b1.
    + rewrite tag_entry_in_phi. cbn [snd]. set_unfold. split; intros; tauto.
    + rewrite tag_entry_out_phi by done. cbn [snd].
      destruct b2, b3; set_unfold; split; intros; tauto.
Qed.

Lemma tag_entry_idemp (b1 b2 b3 : bool) (e : param * gset string) :
  tag_entry b1 b2 b3 (tag_entry b1 b2 b3 e) = tag_entry b1 b2 b3 e.
Proof.
  destruct (decide ("phi" ∈ e.2)) as [Hin|Hnin].
  - rewrite (tag_entry_has_phi _ _ _ e) by done. by apply tag_entry_has_phi.
  - destruct b1.
    + rewrite (tag_entry_in_phi _ _ e). apply tag_entry_has_phi.
      cbn [snd]. apply elem_of_union_r. by apply elem_of_singleton.
    + rewrite (tag_entry_out_phi _ _ e) by done.
      rewrite tag_entry_out_phi; cbn [fst snd].
      * f_equal. apply set_eq. intros t.
        destruct b2, b3; set_unfold; tauto.
      * destruct b2, b3; set_unfold; intros [[?|?]|?]; done.
Qed.

Lemma tag_entry_other_tag (b1 b2 b3 : bool) (e : param * gset string)
    (t : string) :
  t ∉ role_tags → t ∈ (tag_entry b1 b2 b3 e).2 ↔ t ∈ e.2.
Proof.
  intros Ht. pose proof (tag_entry_grows b1 b2 b3 e) as [H1 H2].
  split; [|by apply H1].
  intros Hin. apply H2 in Hin. apply elem_of_union in Hin as [?|?]; done.
Qed.

Lemma tag_layer_eta (L : layer) :
  Layer (l_input_layer L) (l_input_var L) (l_shape L) (l_params L) = L.
Proof. by destruct L. Qed.

Lemma tagged_layer_compose (a : args) (l : layer_ref) (L : layer) :
  (if decide (l ∈ all_layers_of get_all_layers (a_beta a))
   then tag_layer "beta" else id)
    ((if decide (l ∈ get_all_layers (a_psi a)) then tag_layer "psi" else id)
       ((if decide (l ∈ get_all_layers (a_phi a)) then tag_layer "phi" else id)
          L))
  = tagged_layer get_all_layers a l L.
Proof.
  unfold tagged_layer, tag_entry, retag, tag_layer.
  repeat case_decide;
    rewrite ?bool_decide_true by done; rewrite ?bool_decide_false by done;
    cbn [l_input_layer l_input_var l_shape l_params id];
    rewrite <- ?list_fmap_compose; try done.
  by rewrite list_fmap_id, tag_layer_eta.
Qed.

Lemma tagged_lookup_total (a : args) (h : gmap layer_ref layer)
    (l : layer_ref) :
  tagged get_all_layers a h !!! l = tagged_layer get_all_layers a l (h !!! l).
Proof.
  unfold tagged. rewrite !tag_layers_lookup.
  rewrite <- tagged_layer_compose. by repeat case_decide.
Qed.

Lemma tag_layers_lookup_partial (fun_name : string) (ls : list layer_ref)
    (h : gmap layer_ref layer) (l : layer_ref) :
  tag_layers fun_name ls h !! l
  = (if decide (l ∈ ls) then tag_layer fun_name else id) <$> h !! l.
Proof.
  unfold tag_layers. revert h.
  induction ls as [|x ls IH]; intros h; cbn [foldl].
  - rewrite decide_False by apply not_elem_of_nil. by rewrite option_fmap_id.
  - rewrite IH. destruct (decide (x = l)) as [->|Hne].
    + rewrite lookup_alter_eq.
      rewrite (decide_True (P := l ∈ l :: ls)) by apply list_elem_of_here.
      destruct (h !! l) as [L|]; [|by destruct (decide (l ∈ ls))].
      cbn [fmap option_fmap option_map].
      destruct (decide (l ∈ ls)); [|done].
      by rewrite tag_layer_idemp.
    + rewrite lookup_alter_ne by done.
      destruct (decide (l ∈ ls)) as [Hin|Hnin].
      * rewrite decide_True; [done|]. by apply list_elem_of_further.
      * rewrite decide_False; [done|].
        rewrite elem_of_cons.
        intros [H|H]; [exact (Hne (eq_sym H)) | exact (Hnin H)].
Qed.

Lemma tagged_lookup (a : args) (h : gmap layer_ref layer) (l : layer_ref) :
  tagged get_all_layers a h !! l = tagged_layer get_all_layers a l <$> h !! l.
Proof.
  unfold tagged. rewrite !tag_layers_lookup_partial.
  rewrite <- !option_fmap_compose.
  apply option_fmap_ext. intros L. cbn [compose].
  apply tagged_layer_compose.
Qed.

Lemma tagged_layer_idemp (a : args) (l : layer_ref) (L : layer) :
  tagged_layer get_all_layers a l (tagged_layer get_all_layers a l L) = tagged_layer get_all_layers a l L.
Proof.
  unfold tagged_layer. cbn [l_input_layer l_input_var l_shape l_params].
  f_equal. rewrite <- list_fmap_compose.
  apply list_fmap_ext. intros i e _. apply tag_entry_idemp.
Qed.

Lemma tagged_idemp (a : args) (h : gmap layer_ref layer) :
  tagged get_all_layers a (tagged get_all_layers a h)
  = tagged get_all_layers a h.
Proof.
  apply map_eq. intros l. rewrite !tagged_lookup.
  destruct (h !! l) as [L|]; [|done].
  cbn [fmap option_fmap option_map]. by rewrite tagged_layer_idemp.
Qed.

Lemma phi_input_tagged (a a' : args) (h : gmap layer_ref layer) :
  phi_input (tagged get_all_layers a' h) a = phi_input h a.
Proof.
  unfold phi_input. rewrite tagged_lookup_total.
  cbn [tagged_layer l_input_layer].
  destruct (l_input_layer (h !!! a_phi a)) as [il|]; [|done].
  by rewrite tagged_lookup_total.
Qed.

Lemma construct_fails (c : pattern_class) (ctv : option var) (a : args)
    (h : gmap layer_ref layer) :
  phi_input h a = None →
  construct get_all_layers c ctv a h
  = (Raise AttributeError, MkState h (new_object c a)).
Proof.
  intros Hwf. unfold construct.
  destruct c; unfold PairwiseTransformationPattern_init; run_monad;
    rewrite Pattern_init_fails by done; done.
Qed.

(** The store a constructor leaves, whatever its outcome. *)
Lemma construct_heap (c : pattern_class) (ctv : option var) (a : args)
    (h : gmap layer_ref layer) :
  heap (construct get_all_layers c ctv a h).2
  = match phi_input h a with
    | Some _ => tagged get_all_layers a h
    | None => h
    end.
Proof.
  destruct (phi_input h a) as [[il iv]|] eqn:Hwf.
  - destruct (decide (c = Pattern)) as [->|Hc].
    + unfold construct. apply phi_input_Some in Hwf as [Hil Hiv].
      by rewrite (Pattern_init_ok get_all_layers a _ il iv).
    + rewrite (pairwise_init_step c ctv a h il iv) by done.
      destruct ctv as [cv|]; [|done].
      unfold bind at 1.
      destruct (_create_target_objective None None _) as [[[]|e] s2] eqn:H2.
      * destruct (_create_context_objective s2) as [r3 s3] eqn:H3.
        apply create_target_objective_wiring in H2 as (Hh2 & _).
        apply create_context_objective_wiring in H3 as (Hh3 & _).
        cbn [snd]. by rewrite Hh3, Hh2.
      * by apply create_target_objective_wiring in H2 as (Hh2 & _).
  - unfold construct.
    destruct c; unfold PairwiseTransformationPattern_init; run_monad;
      rewrite Pattern_init_fails by done; done.
Qed.


(** What a constructor that returned normally has stored. *)
Lemma construct_ok_wiring (c : pattern_class) (ctv : option var) (a : args)
    (h : gmap layer_ref layer) (s : state) :
  construct get_all_layers c ctv a h = (Ok tt, s) →
  ∃ il iv,
    phi_input h a = Some (il, iv) ∧
    heap s = tagged get_all_layers a h ∧
    same_wiring
      (set_context_transform_var (if decide (c = Pattern) then None else ctv)
         (Pattern_fields (new_object c a) a il iv))
      (self s).
Proof.
  intros Hrun.
  destruct (phi_input h a) as [[il iv]|] eqn:Hwf.
  - exists il, iv. split; [done|].
    destruct (decide (c = Pattern)) as [->|Hc].
    + unfold construct in Hrun. apply phi_input_Some in Hwf as [Hil Hiv].
      rewrite (Pattern_init_ok get_all_layers a _ il iv) in Hrun by done.
      injection Hrun as <-. split; [done|]. by repeat split.
    + rewrite (pairwise_init_step c ctv a h il iv) in Hrun by done.
      destruct ctv as [cv|]; [|done].
      apply bind_ok_inv in Hrun as ([] & s2 & H2 & H3).
      apply create_target_objective_wiring in H2 as (Hh2 & Hw2 & _).
      apply create_context_objective_wiring in H3 as (Hh3 & Hw3 & _).
      split; [by rewrite Hh3, Hh2|].
      by apply (same_wiring_trans _ _ _ Hw2 Hw3).
  - by rewrite construct_fails in Hrun.
Qed.

(** X1: after a constructor returned normally, [input_layer] and
    [input_var] are those of phi's own input layer, in the store as it is
    now, and the other arguments are stored as given; a callable loss is in
    its [_fn] slot. *)
Theorem construct_stores_arguments (c : pattern_class) (ctv : option var)
    (a : args) (h : gmap layer_ref layer) (s : state) :
  construct get_all_layers c ctv a h = (Ok tt, s) →
  input_layer (self s) = l_input_layer (heap s !!! phi (self s)) ∧
  (∃ il, input_layer (self s) = Some il ∧
         is_Some (input_var (self s)) ∧
         input_var (self s) = l_input_var (heap s !!! il)) ∧
  cls (self s) = c ∧
  phi (self s) = a_phi a ∧ psi (self s) = a_psi a ∧ beta (self s) = a_beta a ∧
  target_var (self s) = a_target_var a ∧
  context_var (self s) = a_context_var a ∧
  name (self s) = a_name a ∧
  target_loss_fn (self s) = fn_of (a_target_loss a) ∧
  context_loss_fn (self s) = fn_of (a_context_loss a) ∧
  (c ≠ Pattern → context_transform_var (self s) = ctv).
Proof.
  intros (il & iv & Hwf & Hh & Hw)%construct_ok_wiring.
  apply phi_input_Some in Hwf as [Hil Hiv].
  destruct Hw as (-> & -> & -> & -> & -> & -> & -> & -> & -> & -> & -> & _
                  & -> & _).
  rewrite Hh. simpl_fields.
  repeat apply conj; try done.
  - rewrite tagged_lookup_total. cbn [tagged_layer l_input_layer]. done.
  - exists il. rewrite tagged_lookup_total. cbn [tagged_layer l_input_var].
    by eauto.
  - by destruct (a_target_loss a).
  - by destruct (a_context_loss a).
  - intros Hc. by rewrite decide_False.
Qed.

(** ** Tags after construction *)

Lemma construct_lookup_total (c : pattern_class) (ctv : option var)
    (a : args) (h : gmap layer_ref layer) (l : layer_ref) :
  heap (construct get_all_layers c ctv a h).2 !!! l = h !!! l ∨
  heap (construct get_all_layers c ctv a h).2 !!! l
    = tagged_layer get_all_layers a l (h !!! l).
Proof.
  rewrite construct_heap. destruct (phi_input h a); [right|by left].
  apply tagged_lookup_total.
Qed.

(** X3: whatever its outcome, a constructor leaves every layer's wiring,
    variable, shape and parameter list (keys and order) as they were; a
    tag set can only grow, and only by role tags; a layer outside the three
    graphs is not changed at all. *)
Theorem construct_only_adds_role_tags (c : pattern_class) (ctv : option var)
    (a : args) (h : gmap layer_ref layer) (l : layer_ref) :
  let L := h !!! l in
  let L' := heap (construct get_all_layers c ctv a h).2 !!! l in
  l_input_layer L' = l_input_layer L ∧
  l_input_var L' = l_input_var L ∧
  l_shape L' = l_shape L ∧
  (l_params L').*1 = (l_params L).*1 ∧
  (∀ i q ts', l_params L' !! i = Some (q, ts') →
     ∃ ts, l_params L !! i = Some (q, ts) ∧
           ts ⊆ ts' ∧ ts' ⊆ ts ∪ role_tags) ∧
  (l ∉ get_all_layers (a_phi a) → l ∉ get_all_layers (a_psi a) →
   l ∉ all_layers_of get_all_layers (a_beta a) → L' = L).
Proof.
  intros L L'. subst L'.
  destruct (construct_lookup_total c ctv a h l) as [->| ->]; fold L.
  { repeat apply conj; try done.
    intros i q ts' Hi. exists ts'. repeat split; [done..|].
    apply union_subseteq_l. }
  unfold tagged_layer.
  cbn [l_input_layer l_input_var l_shape l_params].
  repeat apply conj; try done.
  - rewrite <- list_fmap_compose. apply list_fmap_ext.
    intros i e _. apply tag_entry_key.
  - intros i q ts'. rewrite list_lookup_fmap.
    destruct (l_params L !! i) as [[q0 ts]|]; [|done].
    cbn [fmap option_fmap option_map]. intros [= Heq].
    pose proof (tag_entry_key
                  (bool_decide (l ∈ get_all_layers (a_phi a)))
                  (bool_decide (l ∈ get_all_layers (a_psi a)))
                  (bool_decide (l ∈ all_layers_of get_all_layers (a_beta a)))
                  (q0, ts)) as Hk.
    pose proof (tag_entry_grows
                  (bool_decide (l ∈ get_all_layers (a_phi a)))
                  (bool_decide (l ∈ get_all_layers (a_psi a)))
                  (bool_decide (l ∈ all_layers_of get_all_layers (a_beta a)))
                  (q0, ts)) as [Hg1 Hg2].
    rewrite Heq in Hk, Hg1, Hg2. cbn [fst snd] in *. subst q0.
    by exists ts.
  - intros H1 H2 H3. rewrite !bool_decide_false by done.
    unfold tag_entry, retag. rewrite list_fmap_id. apply tag_layer_eta.
Qed.

(** X4: the skip rule is one-sided.  In a layer of psi's or beta's graph
    that is outside phi's graph, an entry that already carries "phi" is
    left exactly as it is, and an entry without "phi" gets the role of each
    of the two graphs its layer lies in, and never "phi". *)
Theorem construct_tags_other_roles (c : pattern_class) (ctv : option var)
    (a : args) (h : gmap layer_ref layer) (l : layer_ref) (i : nat)
    (q : param) (ts : gset string) :
  is_Some (phi_input h a) →
  l ∉ get_all_layers (a_phi a) →
  l_params (h !!! l) !! i = Some (q, ts) →
  ∃ ts',
    l_params (heap (construct get_all_layers c ctv a h).2 !!! l) !! i
      = Some (q, ts') ∧
    ("phi" ∈ ts → ts' = ts) ∧
    ("phi" ∉ ts →
       ("phi" ∉ ts') ∧
       ("psi" ∈ ts' ↔ "psi" ∈ ts ∨ l ∈ get_all_layers (a_psi a)) ∧
       ("beta" ∈ ts' ↔
          "beta" ∈ ts ∨ l ∈ all_layers_of get_all_layers (a_beta a))).
Proof.
  intros [[il iv] Hwf] Hphi Hentry.
  rewrite construct_heap, Hwf, tagged_lookup_total.
  unfold tagged_layer. cbn [l_params].
  rewrite list_lookup_fmap, Hentry. cbn [fmap option_fmap option_map].
  rewrite (bool_decide_false (l ∈ get_all_layers (a_phi a))) by done.
  destruct (decide ("phi" ∈ ts)) as [Hin|Hnin].
  - exists ts. by rewrite tag_entry_has_phi.
  - rewrite tag_entry_out_phi by done. cbn [fst snd].
    eexists. split; [done|]. split; [done|]. intros _.
    rewrite !elem_of_union.
    repeat case_bool_decide; rewrite ?elem_of_singleton, ?elem_of_empty;
      repeat split; try done; intuition (try discriminate; eauto).
Qed.

(** X5: constructing a pattern from the same arguments again, over the
    store the first construction left, does not change the store: the tags
    are all there already. *)
Theorem construct_twice_same_store (c c' : pattern_class)
    (ctv ctv' : option var) (a : args) (h : gmap layer_ref layer) :
  heap (construct get_all_layers c' ctv' a
          (heap (construct get_all_layers c ctv a h).2)).2
  = heap (construct get_all_layers c ctv a h).2.
Proof.
  rewrite !construct_heap.
  destruct (phi_input h a) as [w|] eqn:Hwf.
  - by rewrite phi_input_tagged, Hwf, tagged_idemp.
  - by rewrite Hwf.
Qed.

(** ** Filtering by role and by other tags *)

Lemma fresh_entry_role (b1 b2 b3 : bool) (e : param * gset string)
    (r : string) :
  e.2 ## role_tags → r ∈ role_tags →
  r ∈ (tag_entry b1 b2 b3 e).2 ↔ r ∈ (tag_entry b1 b2 b3 (0, ∅)).2.
Proof.
  intros Hfresh Hr.
  assert ("phi" ∉ e.2) as Hphi.
  { intros Hin. apply (Hfresh "phi" Hin). unfold role_tags.
    rewrite !elem_of_union, !elem_of_singleton. auto. }
  assert (r ∉ e.2) as Hre by (intros Hin; exact (Hfresh r Hin Hr)).
  destruct b1.
  - rewrite !tag_entry_in_phi. cbn [snd].
    rewrite !elem_of_union, elem_of_empty. tauto.
  - rewrite !tag_entry_out_phi by (done || apply not_elem_of_empty).
    cbn [snd]. rewrite !elem_of_union, elem_of_empty. tauto.
Qed.

Lemma role_filter (es : list (param * gset string)) (b1 b2 b3 : bool)
    (r : string) :
  Forall (λ e : param * gset string, e.2 ## role_tags) es →
  r ∈ role_tags →
  (filter (λ e : param * gset string,
             only {[r := true]} ⊆ e.2 ∧ e.2 ## exclude {[r := true]})
          (tag_entry b1 b2 b3 <$> es)).*1
  = if bool_decide (r ∈ (tag_entry b1 b2 b3 (0, ∅)).2) then es.*1 else [].
Proof.
  intros Hfresh Hr. rewrite only_singleton, exclude_singleton.
  induction Hfresh as [|e es He Hes IH]; [by case_bool_decide|].
  rewrite fmap_cons.
  pose proof (fresh_entry_role b1 b2 b3 e r He Hr) as Hiff.
  case_bool_decide as Hin.
  - rewrite filter_cons_True.
    + rewrite !fmap_cons, IH. by rewrite tag_entry_key.
    + split; [|apply disjoint_empty_r].
      apply singleton_subseteq_l. by apply Hiff.
  - rewrite filter_cons_False; [done|].
    intros [Hsub _]. apply Hin, Hiff. by apply singleton_subseteq_l.
Qed.

Lemma role_in_phi (b2 b3 : bool) (r : string) :
  bool_decide (r ∈ (tag_entry true b2 b3 (0, ∅)).2) = bool_decide (r = "phi").
Proof.
  apply bool_decide_ext. rewrite tag_entry_in_phi. cbn [snd].
  rewrite elem_of_union, elem_of_empty, elem_of_singleton. tauto.
Qed.

Lemma role_in_psi (r : string) :
  bool_decide (r ∈ (tag_entry false true false (0, ∅)).2)
  = bool_decide (r = "psi").
Proof.
  apply bool_decide_ext.
  rewrite tag_entry_out_phi by apply not_elem_of_empty. cbn [snd].
  rewrite !elem_of_union, elem_of_empty, elem_of_singleton. tauto.
Qed.

Lemma role_in_beta (r : string) :
  bool_decide (r ∈ (tag_entry false false true (0, ∅)).2)
  = bool_decide (r = "beta").
Proof.
  apply bool_decide_ext.
  rewrite tag_entry_out_phi by apply not_elem_of_empty. cbn [snd].
  rewrite !elem_of_union, elem_of_empty, elem_of_singleton. tauto.
Qed.

Lemma role_tags_elem (r : string) :
  r ∈ role_tags ↔ r = "phi" ∨ r = "psi" ∨ r = "beta".
Proof.
  unfold role_tags. rewrite !elem_of_union, !elem_of_singleton. tauto.
Qed.

(** X6: when the three sub-networks are separate graphs (psi's and beta's
    top layers lie outside phi's graph and outside each other's) whose
    parameters carry no role tag yet, then after construction filtering by
    a role returns exactly the parameters of that role's layer: the tag
    "phi" selects phi's parameters, "psi" psi's, and "beta" beta's (none
    without beta). *)
Theorem get_params_by_role (c : pattern_class) (ctv : option var)
    (a : args) (h : gmap layer_ref layer) (s : state) :
  construct get_all_layers c ctv a h = (Ok tt, s) →
  a_phi a ∈ get_all_layers (a_phi a) →
  a_psi a ∈ get_all_layers (a_psi a) →
  a_psi a ∉ get_all_layers (a_phi a) →
  a_psi a ∉ all_layers_of get_all_layers (a_beta a) →
  (∀ b, a_beta a = Some b →
     b ∈ get_all_layers b ∧ (b ∉ get_all_layers (a_phi a)) ∧
     (b ∉ get_all_layers (a_psi a)) ∧ no_role_tags (h !!! b)) →
  no_role_tags (h !!! a_phi a) →
  no_role_tags (h !!! a_psi a) →
  get_params (heap s) (self s) {["phi" := true]}
    = (l_params (h !!! a_phi a)).*1 ∧
  get_params (heap s) (self s) {["psi" := true]}
    = (l_params (h !!! a_psi a)).*1 ∧
  get_params (heap s) (self s) {["beta" := true]}
    = from_option (λ b, (l_params (h !!! b)).*1) [] (a_beta a).
Proof.
  intros (il & iv & _ & Hh & Hw)%construct_ok_wiring
         Hphi Hpsi Hsep Hsepb Hbeta Fphi Fpsi.
  destruct Hw as (_ & Hp & Hs & Hb & _). simpl_fields.
  assert ("phi" ∈ role_tags ∧ "psi" ∈ role_tags ∧ "beta" ∈ role_tags)
    as (Rphi & Rpsi & Rbeta) by (rewrite !role_tags_elem; auto).
  unfold get_params. rewrite Hp, Hs, Hb, Hh.
  destruct (a_beta a) as [b|] eqn:Hbe; cbn [from_option all_layers_of] in *.
  - destruct (Hbeta b eq_refl) as (Hb1 & Hb2 & Hb3 & Fb).
    rewrite !tagged_lookup_total.
    unfold Layer_get_params, tagged_layer. cbn [l_params]. rewrite Hbe.
    cbn [from_option all_layers_of].
    rewrite (bool_decide_true (a_phi a ∈ get_all_layers (a_phi a))) by done.
    rewrite (bool_decide_true (a_psi a ∈ get_all_layers (a_psi a))) by done.
    rewrite (bool_decide_false (a_psi a ∈ get_all_layers (a_phi a))) by done.
    rewrite (bool_decide_false (a_psi a ∈ get_all_layers b)) by done.
    rewrite (bool_decide_true (b ∈ get_all_layers b)) by done.
    rewrite (bool_decide_false (b ∈ get_all_layers (a_phi a))) by done.
    rewrite (bool_decide_false (b ∈ get_all_layers (a_psi a))) by done.
    rewrite !role_filter by done.
    rewrite !role_in_phi, role_in_psi, role_in_beta.
    repeat apply conj; repeat case_bool_decide; try done;
      by rewrite ?app_nil_r, ?app_nil_l.
  - rewrite !tagged_lookup_total.
    unfold Layer_get_params, tagged_layer. cbn [l_params]. rewrite Hbe.
    cbn [from_option all_layers_of].
    rewrite (bool_decide_true (a_phi a ∈ get_all_layers (a_phi a))) by done.
    rewrite (bool_decide_true (a_psi a ∈ get_all_layers (a_psi a))) by done.
    rewrite (bool_decide_false (a_psi a ∈ get_all_layers (a_phi a))) by done.
    rewrite (bool_decide_false (a_psi a ∈ [])) by apply not_elem_of_nil.
    rewrite !role_filter by done.
    rewrite !role_in_phi, role_in_psi.
    repeat apply conj; repeat case_bool_decide; try done;
      by rewrite ?app_nil_r, ?app_nil_l.
Qed.

Lemma only_subseteq_dom (tags : gmap string bool) : only tags ⊆ dom tags.
Proof. unfold only. apply dom_filter_subseteq. Qed.

Lemma exclude_subseteq_dom (tags : gmap string bool) : exclude tags ⊆ dom tags.
Proof. unfold exclude. apply dom_filter_subseteq. Qed.

Lemma Layer_get_params_tagged (a : args) (l : layer_ref) (L : layer)
    (tags : gmap string bool) :
  dom tags ## role_tags →
  Layer_get_params (tagged_layer get_all_layers a l L) tags
  = Layer_get_params L tags.
Proof.
  intros Hdom. unfold Layer_get_params, tagged_layer. cbn [l_params].
  pose proof (only_subseteq_dom tags) as Ho.
  pose proof (exclude_subseteq_dom tags) as He.
  induction (l_params L) as [|e es IH]; [done|].
  rewrite fmap_cons.
  set (e' := tag_entry _ _ _ e).
  assert (∀ t, t ∈ dom tags → t ∈ e'.2 ↔ t ∈ e.2) as Hiff.
  { intros t Ht. apply tag_entry_other_tag. intros Hr. exact (Hdom t Ht Hr). }
  assert ((only tags ⊆ e'.2 ∧ e'.2 ## exclude tags)
          ↔ (only tags ⊆ e.2 ∧ e.2 ## exclude tags)) as Hcond.
  { split; intros [Hsub Hdis]; split.
    - intros t Ht. apply Hiff; [by apply Ho|by apply Hsub].
    - intros t Ht Hex. apply (Hdis t); [|done]. apply Hiff; [by apply He|done].
    - intros t Ht. apply Hiff; [by apply Ho|by apply Hsub].
    - intros t Ht Hex. apply (Hdis t); [|done]. apply Hiff; [by apply He|done]. }
  destruct (decide (only tags ⊆ e.2 ∧ e.2 ## exclude tags)) as [Hyes|Hno].
  - rewrite !filter_cons_True by (done || by apply Hcond).
    rewrite !fmap_cons, IH. f_equal. apply tag_entry_key.
  - rewrite !filter_cons_False by (done || by rewrite Hcond). apply IH.
Qed.

(** X17: construction leaves every filter that asks for no role tag as it
    was: for tags other than "phi", "psi" and "beta" (such as trainable or
    regularizable), [get_params] returns the same list over the store after
    construction as over the store before, whatever the outcome; this
    includes the unfiltered list. *)
Theorem get_params_other_tags_unchanged (c : pattern_class)
    (ctv : option var) (a : args) (h : gmap layer_ref layer) (p : pattern)
    (tags : gmap string bool) :
  dom tags ## role_tags →
  get_params (heap (construct get_all_layers c ctv a h).2) p tags
  = get_params h p tags.
Proof.
  intros Hdom.
  assert (∀ l, Layer_get_params
                 (heap (construct get_all_layers c ctv a h).2 !!! l) tags
               = Layer_get_params (h !!! l) tags) as Hl.
  { intros l. destruct (construct_lookup_total c ctv a h l) as [->| ->];
      [done|by apply Layer_get_params_tagged]. }
  unfold get_params. rewrite !Hl. by destruct (beta p); rewrite ?Hl.
Qed.

(** ** Using a pairwise pattern after construction *)

(** X13: whenever the constructor of a pairwise pattern returns normally,
    both losses are set, so [training_loss] returns normally for every pair
    of weights. *)
Theorem pairwise_construct_then_training_loss (c : pattern_class)
    (ctv : option var) (a : args) (h : gmap layer_ref layer) (s : state) :
  c ≠ Pattern →
  construct get_all_layers c ctv a h = (Ok tt, s) →
  is_Some (target_loss (self s)) ∧
  is_Some (context_loss (self s)) ∧
  ∀ tw cw, succeeds (training_loss (self s) tw cw).
Proof.
  intros Hc Hrun.
  assert (is_Some (target_loss (self s)) ∧ is_Some (context_loss (self s)))
    as [[tl Htl] [cl Hcl]].
  { destruct (phi_input h a) as [[il iv]|] eqn:Hwf;
      [|by rewrite construct_fails in Hrun].
    rewrite (pairwise_init_step c ctv a h il iv) in Hrun by done.
    destruct ctv as [cv|]; [|done].
    apply bind_ok_inv in Hrun as ([] & s2 & H2 & H3).
    apply create_target_objective_sets in H2.
    pose proof H3 as (_ & _ & Hkeep)%create_context_objective_wiring.
    apply create_context_objective_sets in H3.
    by rewrite Hkeep. }
  split; [eauto|]. split; [eauto|].
  intros tw cw. unfold training_loss, py_mul, succeeds. rewrite Htl, Hcl.
  repeat case_decide; cbn [res_bind]; eauto.
Qed.

(** X11: the class [PairwiseTransformationPattern] itself can only be
    instantiated with a ready context-loss expression.  With phi on an
    input layer, [context_transform_var] given and a target loss to be
    had, a ready context loss makes the constructor return normally with
    both losses set; without one, and with [context_var] given, it raises
    [NotImplementedError] after the target loss has been built. *)
Theorem pairwise_abstract_construct (cv : var) (a : args)
    (h : gmap layer_ref layer) (il : layer_ref) (iv : var) (tl : expr) :
  phi_input h a = Some (il, iv) →
  built_target_loss a iv = Some tl →
  let run := construct get_all_layers PairwiseTransformationPattern
               (Some cv) a h in
  (∀ e, a_context_loss a = LExpr e →
     run.1 = Ok tt ∧
     target_loss (self run.2) = Some tl ∧
     context_loss (self run.2) = Some e) ∧
  (expr_of (a_context_loss a) = None → is_Some (a_context_var a) →
     run.1 = Raise NotImplementedError ∧
     target_loss (self run.2) = Some tl ∧
     context_loss (self run.2) = None).
Proof.
  intros Hwf Htl run. subst run.
  rewrite (pairwise_init_step _ _ a h il iv) by done.
  destruct a as [ph ps be tv xv tl0 cl nm]. clear Hwf.
  split.
  - intros e'. revert Htl.
    destruct tl0 as [|e|f], tv as [t|], cl as [|e0|f'];
      crunch_builders; intros; simplify_eq; done.
  - revert Htl.
    destruct tl0 as [|e|f], tv as [t|], cl as [|e0|f'], xv as [x|];
      crunch_builders; intros ? ? [? ?]; simplify_eq; done.
Qed.

(** X7: after a constructor returned normally, [training_input_vars] lists,
    in this order, the variable of phi's input layer, the target variable
    and the context variable as given, and for the pairwise classes the
    (then non-null) [context_transform_var] last; [context_vars] is that
    list without its first two entries. *)
Theorem construct_training_input_vars (c : pattern_class) (ctv : option var)
    (a : args) (h : gmap layer_ref layer) (s : state) :
  construct get_all_layers c ctv a h = (Ok tt, s) →
  ∃ il iv,
    phi_input h a = Some (il, iv) ∧
    training_input_vars (self s)
      = [Some iv; a_target_var a; a_context_var a]
        ++ (if decide (c = Pattern) then [] else [ctv]) ∧
    context_vars (self s) = drop 2 (training_input_vars (self s)) ∧
    (c ≠ Pattern → is_Some ctv).
Proof.
  intros Hrun.
  pose proof Hrun as (il & iv & Hwf & Hh & Hw)%construct_ok_wiring.
  exists il, iv. split; [done|].
  destruct Hw as (Hcls & _ & _ & _ & _ & Hiv & Htv & Hxv & _ & _ & _ & _
                  & Hctv & _).
  simpl_fields.
  unfold training_input_vars, context_vars. rewrite Hcls, Hiv, Htv, Hxv, Hctv.
  repeat apply conj.
  - by destruct c.
  - by destruct c.
  - intros Hc. rewrite (pairwise_init_step c ctv a h il iv) in Hrun by done.
    by destruct ctv.
Qed.

(** ** Values *)

Lemma zip_with_Qcminus_swap (t u : tensor) :
  zip_with Qcminus u t = Qcopp <$> zip_with Qcminus t u.
Proof.
  revert u. induction t as [|x t IH]; intros [|y u]; try done.
  cbn [zip_with]. rewrite fmap_cons, IH. f_equal. ring.
Qed.

Lemma zip_with_Qcminus_diag (t : tensor) :
  Forall (λ q, q = 0%Qc) (zip_with Qcminus t t).
Proof.
  induction t as [|x t IH]; cbn [zip_with]; constructor; [ring|done].
Qed.


Section Values.

Variable var_val : var → tensor.
Variable layer_fun : layer_ref → tensor → tensor.
Variable loss_fun : loss_fn → tensor → tensor → tensor.

#[local] Abbreviation value := (denote var_val layer_fun loss_fun).
#[local] Abbreviation result := (result_value var_val layer_fun loss_fun).

(** X14: without a beta sub-network the predicted transformation is
    antisymmetric: swapping the two inputs negates every entry of the
    result, and for equal inputs every entry is zero. *)
Theorem get_beta_output_for_antisymmetric (p : pattern) (x x' : expr) :
  cls p = PairwisePredictTransformationPattern →
  beta p = None →
  ∃ d d' d0,
    get_beta_output_for p (Some x) (Some x') = Ok d ∧
    get_beta_output_for p (Some x') (Some x) = Ok d' ∧
    get_beta_output_for p (Some x) (Some x) = Ok d0 ∧
    value d' = Qcopp <$> value d ∧
    Forall (λ q, q = 0%Qc) (value d0).
Proof.
  intros Hcls Hbeta.
  unfold get_beta_output_for, PairwisePredict_get_beta_output_for.
  rewrite Hcls, Hbeta. cbn [Layer_get_output_for res_bind].
  do 3 eexists. repeat split.
  - cbn [denote]. apply zip_with_Qcminus_swap.
  - cbn [denote]. apply zip_with_Qcminus_diag.
Qed.


End Values.

(** ** The cached input layer, once [context_shape] is there *)


(** ** The forward pass after construction *)

Section ForwardPass.

Variable var_val : var → tensor.
Variable layer_fun : layer_ref → tensor → tensor.
Variable loss_fun : loss_fn → tensor → tensor → tensor.

(** X18: after a constructor returned normally, [get_output] does not fail:
    it is psi applied to phi applied to the variable of phi's input layer,
    the same as [get_output_for] and [get_psi_output_for] on that variable,
    and [get_phi_output_for] gives the inner application; in values, the
    output is psi's function after phi's. *)
Theorem construct_then_get_output (c : pattern_class) (ctv : option var)
    (a : args) (h : gmap layer_ref layer) (s : state) :
  construct get_all_layers c ctv a h = (Ok tt, s) →
  ∃ il iv,
    phi_input h a = Some (il, iv) ∧
    get_output (self s) = Ok (ELayer (a_psi a) (ELayer (a_phi a) (EVar iv))) ∧
    get_output_for (self s) (Some (EVar iv)) = get_output (self s) ∧
    get_psi_output_for (self s) (Some (EVar iv)) = get_output (self s) ∧
    get_phi_output_for (self s) (Some (EVar iv))
      = Ok (ELayer (a_phi a) (EVar iv)) ∧
    result_value var_val layer_fun loss_fun (get_output (self s))
      = Some (layer_fun (a_psi a) (layer_fun (a_phi a) (var_val iv))).
Proof.
  intros (il & iv & Hwf & _ & Hw)%construct_ok_wiring.
  exists il, iv. split; [done|].
  destruct Hw as (_ & Hp & Hs & _ & _ & Hiv & _). simpl_fields.
  unfold get_output, get_output_for, get_psi_output_for, get_phi_output_for.
  rewrite Hiv, Hp, Hs. done.
Qed.

End ForwardPass.

End FurtherProperties.

(** ** The further properties applied to the concrete model *)

Lemma construct_stores_arguments_witness :
  construct example_layers PairwisePredictTransformationPattern (Some c_ij)
    example_args example_heap = (Ok tt, example_pairwise) ∧
  input_layer (self example_pairwise)
    = l_input_layer (heap example_pairwise !!! phi (self example_pairwise)).
Proof.
  assert (construct example_layers PairwisePredictTransformationPattern
            (Some c_ij) example_args example_heap = (Ok tt, example_pairwise))
    as Hrun by (vm_compute; reflexivity).
  split; [exact Hrun|].
  exact (proj1 (construct_stores_arguments example_layers _ _ _ _ _ Hrun)).
Defined.

Lemma construct_tags_other_roles_witness :
  is_Some (phi_input example_heap example_args) ∧
  (3 ∉ example_layers (a_phi example_args)) ∧
  l_params (example_heap !!! 3) !! 0 = Some (30, {["trainable"]}) ∧
  ∃ ts',
    l_params (heap example_base !!! 3) !! 0 = Some (30, ts') ∧
    ("phi" ∈ ({["trainable"]} : gset string) → ts' = {["trainable"]}) ∧
    ("phi" ∉ ({["trainable"]} : gset string) →
       ("phi" ∉ ts') ∧
       ("psi" ∈ ts' ↔ "psi" ∈ ({["trainable"]} : gset string)
                      ∨ 3 ∈ example_layers (a_psi example_args)) ∧
       ("beta" ∈ ts' ↔ "beta" ∈ ({["trainable"]} : gset string)
                       ∨ 3 ∈ all_layers_of example_layers
                               (a_beta example_args))).
Proof.
  assert (is_Some (phi_input example_heap example_args)) as Hwf
    by (eexists; vm_compute; reflexivity).
  assert (3 ∉ example_layers (a_phi example_args)) as Hout
    by (apply (bool_decide_unpack _); vm_compute; exact I).
  assert (l_params (example_heap !!! 3) !! 0 = Some (30, {["trainable"]}))
    as Hentry by (vm_compute; reflexivity).
  split; [exact Hwf|]. split; [exact Hout|]. split; [exact Hentry|].
  exact (construct_tags_other_roles example_layers Pattern None example_args
           example_heap 3 0 30 _ Hwf Hout Hentry).
Defined.

Lemma get_params_by_role_witness :
  construct example_layers PairwisePredictTransformationPattern (Some c_ij)
    example_args_fn example_heap = (Ok tt, example_pairwise_beta) ∧
  get_params (heap example_pairwise_beta) (self example_pairwise_beta)
    {["phi" := true]} = (l_params (example_heap !!! 1)).*1 ∧
  get_params (heap example_pairwise_beta) (self example_pairwise_beta)
    {["psi" := true]} = (l_params (example_heap !!! 3)).*1 ∧
  get_params (heap example_pairwise_beta) (self example_pairwise_beta)
    {["beta" := true]} = (l_params (example_heap !!! 5)).*1.
Proof.
  assert (construct example_layers PairwisePredictTransformationPattern
            (Some c_ij) example_args_fn example_heap
          = (Ok tt, example_pairwise_beta))
    as Hrun by (vm_compute; reflexivity).
  split; [exact Hrun|].
  apply (get_params_by_role example_layers _ _ _ _ _ Hrun).
  - apply (bool_decide_unpack _). vm_compute. exact I.
  - apply (bool_decide_unpack _). vm_compute. exact I.
  - apply (bool_decide_unpack _). vm_compute. exact I.
  - apply (bool_decide_unpack _). vm_compute. exact I.
  - intros b [= <-]. repeat split.
    + apply (bool_decide_unpack _). vm_compute. exact I.
    + apply (bool_decide_unpack _). vm_compute. exact I.
    + apply (bool_decide_unpack _). vm_compute. exact I.
    + apply (bool_decide_unpack _). vm_compute. exact I.
  - apply (bool_decide_unpack _). vm_compute. exact I.
  - apply (bool_decide_unpack _). vm_compute. exact I.
Defined.

Lemma construct_training_input_vars_witness :
  construct example_layers PairwisePredictTransformationPattern (Some c_ij)
    example_args example_heap = (Ok tt, example_pairwise) ∧
  ∃ il iv,
    phi_input example_heap example_args = Some (il, iv) ∧
    training_input_vars (self example_pairwise)
      = [Some iv; Some y; Some x_j] ++ [Some c_ij].
Proof.
  assert (construct example_layers PairwisePredictTransformationPattern
            (Some c_ij) example_args example_heap = (Ok tt, example_pairwise))
    as Hrun by (vm_compute; reflexivity).
  split; [exact Hrun|].
  destruct (construct_training_input_vars example_layers _ _ _ _ _ Hrun)
    as (il & iv & Hwf & Hvars & _).
  exists il, iv. split; [exact Hwf|]. exact Hvars.
Defined.

Lemma create_target_objective_needs_target_var_witness :
  input_var (self example_base_no_target) = Some x_i ∧
  target_loss (self example_base_no_target) = None ∧
  target_var (self example_base_no_target) = None ∧
  _create_target_objective None (Some (EVar y)) example_base_no_target
    = (Raise AssertionError, example_base_no_target).
Proof.
  assert (input_var (self example_base_no_target) = Some x_i) as Hv
    by (vm_compute; reflexivity).
  assert (target_loss (self example_base_no_target) = None) as Hl
    by (vm_compute; reflexivity).
  assert (target_var (self example_base_no_target) = None) as Ht
    by (vm_compute; reflexivity).
  split; [exact Hv|]. split; [exact Hl|]. split; [exact Ht|].
  exact (proj1 (create_target_objective_needs_target_var
                  example_base_no_target x_i None (Some (EVar y)) Hv) Hl Ht).
Defined.

Lemma create_context_objective_idempotent_witness :
  cls (self example_pairwise_no_context_loss)
    = PairwisePredictTransformationPattern ∧
  context_loss (self example_pairwise_no_context_loss) = None ∧
  _create_context_objective example_pairwise_no_context_loss
    = (Ok tt,
       MkState (heap example_pairwise_no_context_loss)
         (set_context_loss
            (Some (EMean (ECall squared_error
                            (beta_expr (self example_pairwise_no_context_loss)
                               (EVar x_i) (EVar x_j))
                            (EVar c_ij))))
            (self example_pairwise_no_context_loss))).
Proof.
  assert (cls (self example_pairwise_no_context_loss)
          = PairwisePredictTransformationPattern) as Hcls
    by (vm_compute; reflexivity).
  assert (context_loss (self example_pairwise_no_context_loss) = None) as Hl
    by (vm_compute; reflexivity).
  split; [exact Hcls|]. split; [exact Hl|].
  refine (proj1 (create_context_objective_idempotent
                   example_pairwise_no_context_loss squared_error
                   x_i x_j c_ij Hcls _ _ _ Hl _));
    vm_compute; reflexivity.
Defined.

Lemma create_context_objective_abstract_beta_witness :
  cls (self example_abstract) = PairwiseTransformationPattern ∧
  context_loss (self example_abstract) = None ∧
  _create_context_objective example_abstract
    = (Raise NotImplementedError, example_abstract).
Proof.
  assert (cls (self example_abstract) = PairwiseTransformationPattern)
    as Hcls by (vm_compute; reflexivity).
  assert (context_loss (self example_abstract) = None) as Hl
    by (vm_compute; reflexivity).
  split; [exact Hcls|]. split; [exact Hl|].
  refine (create_context_objective_abstract_beta example_abstract x_i x_j
            Hcls _ _ Hl); vm_compute; reflexivity.
Defined.

Lemma pairwise_abstract_construct_witness :
  phi_input example_heap example_args = Some (0, x_i) ∧
  (construct example_layers PairwiseTransformationPattern (Some c_ij)
     example_args example_heap).1 = Raise NotImplementedError.
Proof.
  assert (phi_input example_heap example_args = Some (0, x_i)) as Hwf
    by (vm_compute; reflexivity).
  split; [exact Hwf|].
  refine (proj1 (proj2 (pairwise_abstract_construct example_layers c_ij
                          example_args example_heap 0 x_i _ Hwf eq_refl)
                   eq_refl _)).
  eexists. reflexivity.
Defined.

Lemma pairwise_predict_construct_witness :
  phi_input example_heap example_args_fn = Some (0, x_i) ∧
  (construct example_layers PairwisePredictTransformationPattern (Some c_ij)
     example_args_fn example_heap).1 = Ok tt ∧
  (construct example_layers PairwisePredictTransformationPattern (Some c_ij)
     example_args_no_target example_heap).1 = Raise AssertionError.
Proof.
  assert (phi_input example_heap example_args_fn = Some (0, x_i)) as Hwf
    by (vm_compute; reflexivity).
  assert (phi_input example_heap example_args_no_target = Some (0, x_i))
    as Hwf' by (vm_compute; reflexivity).
  split; [exact Hwf|]. split.
  - exact (proj1 (proj1 (pairwise_predict_construct example_layers c_ij
                           example_args_fn example_heap 0 x_i Hwf)
                    _ _ eq_refl eq_refl)).
  - exact (proj2 (pairwise_predict_construct example_layers c_ij
                    example_args_no_target example_heap 0 x_i Hwf')
             (or_introl eq_refl)).
Defined.

Lemma pairwise_construct_then_training_loss_witness :
  PairwisePredictTransformationPattern ≠ Pattern ∧
  construct example_layers PairwisePredictTransformationPattern (Some c_ij)
    example_args example_heap = (Ok tt, example_pairwise) ∧
  succeeds (training_loss (self example_pairwise) 0 0).
Proof.
  assert (PairwisePredictTransformationPattern ≠ Pattern) as Hc by discriminate.
  assert (construct example_layers PairwisePredictTransformationPattern
            (Some c_ij) example_args example_heap = (Ok tt, example_pairwise))
    as Hrun by (vm_compute; reflexivity).
  split; [exact Hc|]. split; [exact Hrun|].
  exact (proj2 (proj2 (pairwise_construct_then_training_loss example_layers
                         _ _ _ _ _ Hc Hrun)) 0%Qc 0%Qc).
Defined.

Lemma get_beta_output_for_antisymmetric_witness :
  cls (self example_pairwise) = PairwisePredictTransformationPattern ∧
  beta (self example_pairwise) = None ∧
  ∃ d d' d0,
    get_beta_output_for (self example_pairwise)
      (Some (EVar x_i)) (Some (EVar x_j)) = Ok d ∧
    get_beta_output_for (self example_pairwise)
      (Some (EVar x_j)) (Some (EVar x_i)) = Ok d' ∧
    get_beta_output_for (self example_pairwise)
      (Some (EVar x_i)) (Some (EVar x_i)) = Ok d0 ∧
    denote example_var_val example_layer_fun example_loss_fun d'
      = Qcopp <$> denote example_var_val example_layer_fun example_loss_fun d ∧
    Forall (λ q, q = 0%Qc)
      (denote example_var_val example_layer_fun example_loss_fun d0).
Proof.
  assert (cls (self example_pairwise) = PairwisePredictTransformationPattern)
    as Hcls by (vm_compute; reflexivity).
  assert (beta (self example_pairwise) = None) as Hbeta
    by (vm_compute; reflexivity).
  split; [exact Hcls|]. split; [exact Hbeta|].
  exact (get_beta_output_for_antisymmetric example_var_val example_layer_fun
           example_loss_fun (self example_pairwise) (EVar x_i) (EVar x_j)
           Hcls Hbeta).
Defined.



Lemma get_params_other_tags_unchanged_witness :
  dom ({["trainable" := true]} : gmap string bool) ## role_tags ∧
  get_params (heap example_pairwise) (self example_pairwise)
    {["trainable" := true]}
  = get_params example_heap (self example_pairwise) {["trainable" := true]}.
Proof.
  assert (dom ({["trainable" := true]} : gmap string bool) ## role_tags)
    as Hdom by (apply (bool_decide_unpack _); vm_compute; exact I).
  split; [exact Hdom|].
  exact (get_params_other_tags_unchanged example_layers
           PairwisePredictTransformationPattern (Some c_ij) example_args
           example_heap (self example_pairwise) _ Hdom).
Defined.

Lemma construct_then_get_output_witness :
  construct example_layers PairwisePredictTransformationPattern (Some c_ij)
    example_args example_heap = (Ok tt, example_pairwise) ∧
  ∃ il iv,
    phi_input example_heap example_args = Some (il, iv) ∧
    get_output (self example_pairwise)
      = Ok (ELayer 3 (ELayer 1 (EVar iv))).
Proof.
  assert (construct example_layers PairwisePredictTransformationPattern
            (Some c_ij) example_args example_heap = (Ok tt, example_pairwise))
    as Hrun by (vm_compute; reflexivity).
  split; [exact Hrun|].
  destruct (construct_then_get_output example_layers example_var_val
              example_layer_fun example_loss_fun _ _ _ _ _ Hrun)
    as (il & iv & Hwf & Hout & _).
  exists il, iv. split; [exact Hwf|]. exact Hout.
Defined.
